(** * Statistic::PointDetailsWidget

    A shallow embedding of [statistics/point_details_widget.cpp]: the popup
    that shows, for one point of a statistics chart, a timestamp header and
    one line (name, value, colour, fade alpha) per chart series.

    Conventions of the embedding.
    - C++ [int] values are [Z]; no overflow is modelled.
    - A [float64] alpha is kept as the rational [Q] it is worth.  [lineYAt],
      and [resizeHeight] on top of it, add the line heights up exactly
      ([std::ceil] is [Qceiling]); [lineYAt64] repeats [lineYAt] with every
      product and partial sum rounded to float64 and with [int] in its
      32-bit range.  The two differ only where the rounded sum and the exact
      one lie on different sides of an integer.
    - The x axis holds whole milliseconds, kept as [Z]; for those
      [timestamp / 1000] followed by the conversion to [qint64] is the
      quotient rounded towards zero ([Z.quot]).
    - Strings produced by the toolkit ([QLocale::toString], [QString::arg])
      are kept symbolic: a term that records which call made them.
    - An out-of-range [operator[]] or [front()] on a [std::vector] is
      undefined behaviour; the operation then yields [None].
    - Style constants ([styles/style_statistics.h]), text measurement and the
      member initialisers of the class declaration live in other files of
      the repository; they are parameters, gathered in [Toolkit].
    - [update()] and [paintEvent] change no member and are left out. *)

From Stdlib Require Import ZArith QArith Qround List String Bool Lia.
From Stdlib Require Floats.
Import ListNotations.

Local Open Scope Z_scope.

(** ** Toolkit values *)

Record QMargins := mkMargins {
  left : Z;
  top : Z;
  right : Z;
  bottom : Z
}.

Record QSize := mkSize {
  size_width : Z;
  size_height : Z
}.

Record QRect := mkRect {
  rect_x : Z;
  rect_y : Z;
  rect_width : Z;
  rect_height : Z
}.

(** [QSize::isNull]: both dimensions are zero. *)
Definition isNull (s : QSize) : bool :=
  (size_width s =? 0) && (size_height s =? 0).

(** [Size(w)] of ui/rect.h: a square size. *)
Definition Size (w : Z) : QSize := mkSize w w.

(** [Rect(size)] of ui/rect.h: the rectangle of that size at the origin. *)
Definition Rect (s : QSize) : QRect :=
  mkRect 0 0 (size_width s) (size_height s).

(** [QRect - QMargins], i.e. [QRect::marginsRemoved]. *)
Definition marginsRemoved (r : QRect) (m : QMargins) : QRect :=
  mkRect (rect_x r + left m) (rect_y r + top m)
         (rect_width r - left m - right m)
         (rect_height r - top m - bottom m).

(** [rect::m::sum::h]: the horizontal margins added up. *)
Definition m_sum_h (m : QMargins) : Z := left m + right m.

Record Font := mkFont { height : Z }.

Record TextStyle := mkTextStyle { font : Font }.

(** A [QString], as far as this file makes one. *)
Inductive QString :=
| QStr (s : string)
    (* a string that already exists: a series name *)
| LocaleDateTime (secsSinceEpoch : Z) (format : string)
    (* QLocale().toString(dateTime, format) *)
| LocaleDate (secsSinceEpoch : Z) (format : string)
    (* QLocale().toString(dateTime.date(), format) *)
| ArgLInt (v : Z)
    (* QString("%L1").arg(v), v an integer *)
| ArgLDouble (v : Q)
    (* QString("%L1").arg(v), v a float64 *).

(** [Ui::Text::String]: empty when default-constructed, else the style and
    text last given to [setText]. *)
Inductive TextString :=
| NoText
| Text (st : TextStyle) (text : QString).

Definition setText (st : TextStyle) (text : QString) : TextString :=
  Text st text.

(** [QColor(c)] for the colour [c] a chart series carries. *)
Inductive QColor :=
| QColorOf (c : string).

(** ** Chart data (Data::StatisticalChart, as far as it is read here) *)

Module Data.

Record Line := mkLine {
  y : list Z;
  id : Z;
  name : string;
  color : string
}.

Record StatisticalChart := mkChart {
  x : list Z;
  lines : list Line
}.

End Data.

(** ** The parameters of the translation *)

Record Toolkit := mkToolkit {
  (* styles/style_layers.h, styles/style_statistics.h *)
  statisticsDetailsPopupStyle : TextStyle;
  semiboldTextStyle : TextStyle;
  statisticsDetailsPopupMargins : QMargins;
  statisticsDetailsPopupPadding : QMargins;
  statisticsDetailsPopupMidLineSpace : Z;
  (* Ui::Text::String(style, text).maxWidth() *)
  maxWidth : TextStyle -> QString -> Z;
  (* the size a widget has when it is created *)
  initialSize : QSize;
  (* member initialisers of the class declaration *)
  initial_xIndex : Z;
  initial_alpha : Q;
  Line_initial_alpha : Q;
  (* whether a new widget is transparent for mouse events *)
  initial_WA_TransparentForMouseEvents : bool
}.

(** ** FormatTimestamp *)

(** [QDateTime::fromSecsSinceEpoch(timestamp / 1000)]: the date-time is
    identified by its seconds since the epoch. *)
Definition fromSecsSinceEpoch (timestamp : Z) : Z := Z.quot timestamp 1000.

(** Seconds since midnight of [dateTime.toUTC().time()]. *)
Definition utcSecondOfDay (secs : Z) : Z := secs mod 86400.

(** [dateTime.toUTC().time().hour()] *)
Definition utcHour (secs : Z) : Z := utcSecondOfDay secs / 3600.

(** [dateTime.toUTC().time().minute()] *)
Definition utcMinute (secs : Z) : Z := (utcSecondOfDay secs mod 3600) / 60.

(** [dateTime.toUTC().time().second()]; not read by [FormatTimestamp]. *)
Definition utcSecond (secs : Z) : Z := utcSecondOfDay secs mod 60.

(** C++ truth value of an [int]. *)
Definition truthy (n : Z) : bool := negb (n =? 0).

Definition FormatTimestamp (timestamp : Z) (longFormat shortFormat : string)
  : QString :=
  let dateTime := fromSecsSinceEpoch timestamp in
  if truthy (utcHour dateTime) || truthy (utcMinute dateTime)
  then LocaleDateTime dateTime longFormat
  else LocaleDate dateTime shortFormat.

(** ** The widget *)

(** [PointDetailsWidget::Line] *)
Record Line := mkLine {
  id : Z;
  name : TextString;
  value : TextString;
  valueColor : QColor;
  alpha : Q
}.

(** The members of the widget, followed by the part of the [QWidget] base
    object this file reads or writes ([size()], the
    [Qt::WA_TransparentForMouseEvents] attribute) and by [calculatedWidth],
    which the size subscription of the constructor captures by value. *)
Record PointDetailsWidget := mkWidget {
  _zoomEnabled : bool;
  _chartData : Data.StatisticalChart;
  _textStyle : TextStyle;
  _headerStyle : TextStyle;
  _longFormat : string;
  _shortFormat : string;
  _header : TextString;
  _xIndex : Z;
  _innerRect : QRect;
  _textRect : QRect;
  _lines : list Line;
  _alpha : Q;
  size : QSize;
  WA_TransparentForMouseEvents : bool;
  calculatedWidth : Z
}.

Definition width (w : PointDetailsWidget) : Z := size_width (size w).

(** [xIndex()] *)
Definition xIndex (w : PointDetailsWidget) : Z := _xIndex w.

(** A small error monad for operations that may index out of range. *)
Definition bind {A B : Type} (m : option A) (k : A -> option B) : option B :=
  match m with
  | Some a => k a
  | None => None
  end.

Notation "x <- m ;; k" := (bind m (fun x => k))
  (at level 61, m at next level, right associativity).

Section Widget.

Variable tk : Toolkit.

(** The subscriber of [sizeValue()] installed by the constructor. *)
Definition onSize (s : QSize) (w : PointDetailsWidget) : PointDetailsWidget :=
  let fullRect := if isNull s then Rect (Size (calculatedWidth w)) else Rect s in
  let innerRect := marginsRemoved fullRect (statisticsDetailsPopupPadding tk) in
  let textRect := marginsRemoved innerRect (statisticsDetailsPopupMargins tk) in
  mkWidget (_zoomEnabled w) (_chartData w) (_textStyle w) (_headerStyle w)
           (_longFormat w) (_shortFormat w) (_header w) (_xIndex w)
           innerRect textRect
           (_lines w) (_alpha w) (size w) (WA_TransparentForMouseEvents w)
           (calculatedWidth w).

(** [resize(w, h)]: the widget takes the size and the subscriber sees it.
    The subscriber is run at once, as the toolkit does for a widget that is
    shown.  For a widget that is not shown the toolkit holds the resize
    event back until it is, and [_innerRect] and [_textRect] then stay
    those of the size delivered last.  What is proved below about reachable
    states does not depend on which of the two happens: the size, the top
    of the text rectangle and with it [lineYAt] are the same either way,
    and facts about the rectangles of a given size are stated through
    [onSize]. *)
Definition resize (width' height' : Z) (w : PointDetailsWidget)
  : PointDetailsWidget :=
  let s := mkSize width' height' in
  onSize s
    (mkWidget (_zoomEnabled w) (_chartData w) (_textStyle w) (_headerStyle w)
              (_longFormat w) (_shortFormat w) (_header w) (_xIndex w)
              (_innerRect w) (_textRect w)
              (_lines w) (_alpha w) s (WA_TransparentForMouseEvents w)
              (calculatedWidth w)).

(** *** lineYAt *)

(** The alpha read at slot [i] of the loop. *)
Definition alphaAt (lines : list Line) (i : nat) : Q :=
  if (List.length lines <=? i)%nat then 1%Q
  else match nth_error lines i with
       | Some line => alpha line
       | None => 1%Q
       end.

(** [_textStyle.font->height + st::statisticsDetailsPopupMidLineSpace] *)
Definition lineUnit (w : PointDetailsWidget) : Z :=
  height (font (_textStyle w)) + statisticsDetailsPopupMidLineSpace tk.

(** The accumulation of the [for] loop over [i = 0 .. index - 1]. *)
Definition linesHeight (w : PointDetailsWidget) (index : Z) : Q :=
  fold_left
    (fun acc i => (acc + alphaAt (_lines w) i * inject_Z (lineUnit w))%Q)
    (seq 0 (Z.to_nat index))
    0%Q.

Definition lineYAt (w : PointDetailsWidget) (index : Z) : Z :=
  rect_y (_textRect w)
  + height (font (_headerStyle w))
  + bottom (statisticsDetailsPopupMargins tk)
  + Qceiling (linesHeight w index).

(** *** resizeHeight *)

Definition resizeHeight (w : PointDetailsWidget) : PointDetailsWidget :=
  resize (width w)
         (lineYAt w (Z.of_nat (List.length (Data.lines (_chartData w))))
          + bottom (statisticsDetailsPopupMargins tk))
         w.

(** *** setLineAlpha *)

Definition withAlpha (a : Q) (line : Line) : Line :=
  mkLine (id line) (name line) (value line) (valueColor line) a.

(** The body of the range-[for]: every line is visited once, in order. *)
Fixpoint setLineAlpha_loop (lineId : Z) (a : Q) (lines : list Line)
  : list Line :=
  match lines with
  | [] => []
  | line :: rest =>
      (if id line =? lineId then withAlpha a line else line)
      :: setLineAlpha_loop lineId a rest
  end.

Definition withLines (ls : list Line) (w : PointDetailsWidget)
  : PointDetailsWidget :=
  mkWidget (_zoomEnabled w) (_chartData w) (_textStyle w) (_headerStyle w)
           (_longFormat w) (_shortFormat w) (_header w) (_xIndex w)
           (_innerRect w) (_textRect w)
           ls (_alpha w) (size w) (WA_TransparentForMouseEvents w)
           (calculatedWidth w).

(** [update()] only schedules a repaint. *)
Definition setLineAlpha (lineId : Z) (a : Q) (w : PointDetailsWidget)
  : PointDetailsWidget :=
  resizeHeight (withLines (setLineAlpha_loop lineId a (_lines w)) w).

(** *** setAlpha *)

Definition setAlpha (a : Q) (w : PointDetailsWidget) : PointDetailsWidget :=
  mkWidget (_zoomEnabled w) (_chartData w) (_textStyle w) (_headerStyle w)
           (_longFormat w) (_shortFormat w) (_header w) (_xIndex w)
           (_innerRect w) (_textRect w)
           (_lines w) a (size w) (WA_TransparentForMouseEvents w)
           (calculatedWidth w).

(** *** setXIndex *)

Definition with_xIndex (xIndex' : Z) (w : PointDetailsWidget)
  : PointDetailsWidget :=
  mkWidget (_zoomEnabled w) (_chartData w) (_textStyle w) (_headerStyle w)
           (_longFormat w) (_shortFormat w) (_header w) xIndex'
           (_innerRect w) (_textRect w)
           (_lines w) (_alpha w) (size w) (WA_TransparentForMouseEvents w)
           (calculatedWidth w).

(** One [Line] of the popup, as the loop body fills it from a series whose
    value at the index is [v]. *)
Definition textLineOf (textStyle : TextStyle) (dataLine : Data.Line) (v : Z)
  : Line :=
  mkLine (Data.id dataLine)
         (setText textStyle (QStr (Data.name dataLine)))
         (setText textStyle (ArgLInt v))
         (QColorOf (Data.color dataLine))
         (Line_initial_alpha tk).

(** The range-[for] over [_chartData.lines]: [lines] is the vector being
    filled by [push_back], [hasPositiveValues] the flag being or-ed. *)
Fixpoint setXIndex_loop (textStyle : TextStyle) (xIndex' : nat)
    (dataLines : list Data.Line) (lines : list Line)
    (hasPositiveValues : bool) : option (list Line * bool) :=
  match dataLines with
  | [] => Some (lines, hasPositiveValues)
  | dataLine :: rest =>
      v <- nth_error (Data.y dataLine) xIndex' ;;
      setXIndex_loop textStyle xIndex' rest
        (lines ++ [textLineOf textStyle dataLine v])
        (hasPositiveValues || (0 <? v))
  end.

Definition setXIndex (xIndex' : Z) (w : PointDetailsWidget)
  : option PointDetailsWidget :=
  let w := with_xIndex xIndex' w in
  if xIndex' <? 0 then Some w
  else
    timestamp <- nth_error (Data.x (_chartData w)) (Z.to_nat xIndex') ;;
    let header :=
      setText (_headerStyle w)
              (FormatTimestamp timestamp (_longFormat w) (_shortFormat w)) in
    r <- setXIndex_loop (_textStyle w) (Z.to_nat xIndex')
           (Data.lines (_chartData w)) [] false ;;
    let clickable := _zoomEnabled w && snd r in
    Some (mkWidget (_zoomEnabled w) (_chartData w) (_textStyle w)
                   (_headerStyle w) (_longFormat w) (_shortFormat w)
                   header (_xIndex w) (_innerRect w) (_textRect w)
                   (fst r) (_alpha w) (size w) (negb clickable)
                   (calculatedWidth w)).

(** *** The constructor *)

Definition construct (chartData : Data.StatisticalChart)
    (maxAbsoluteValue : Q) (zoomEnabled : bool) : option PointDetailsWidget :=
  let textStyle := statisticsDetailsPopupStyle tk in
  let headerStyle := semiboldTextStyle tk in
  let longFormat := "ddd, MMM d hh:mm"%string in
  let shortFormat := "ddd, MMM d"%string in
  let margins := statisticsDetailsPopupMargins tk in
  let padding := statisticsDetailsPopupPadding tk in
  let maxValueTextWidth :=
    maxWidth tk textStyle (ArgLDouble maxAbsoluteValue) in
  let maxNameTextWidth :=
    fold_left
      (fun acc dataLine =>
         Z.max (maxWidth tk textStyle (QStr (Data.name dataLine))) acc)
      (Data.lines chartData) 0 in
  front <- hd_error (Data.x chartData) ;;
  let maxNameTextWidth :=
    Z.max (maxWidth tk headerStyle
             (FormatTimestamp front longFormat shortFormat)
           + left padding)
          maxNameTextWidth in
  let calculatedWidth' :=
    maxValueTextWidth + m_sum_h margins + m_sum_h padding + left padding
    + maxNameTextWidth in
  let w :=
    mkWidget zoomEnabled chartData textStyle headerStyle longFormat
             shortFormat NoText (initial_xIndex tk)
             (mkRect 0 0 0 0) (mkRect 0 0 0 0)
             [] (initial_alpha tk) (initialSize tk)
             (initial_WA_TransparentForMouseEvents tk) calculatedWidth' in
  (* start_with_next delivers the current size at once *)
  let w := onSize (size w) w in
  let w := resize calculatedWidth' (size_height (size w)) w in
  Some (resizeHeight w).

(** *** States the widget can be in *)

(** The constructor, the public setters of this file, and a change of
    geometry by the owner. *)
Inductive reachable : PointDetailsWidget -> Prop :=
| reach_construct chartData maxAbsoluteValue zoomEnabled w :
    construct chartData maxAbsoluteValue zoomEnabled = Some w ->
    reachable w
| reach_setXIndex xIndex' w w' :
    reachable w -> setXIndex xIndex' w = Some w' -> reachable w'
| reach_setLineAlpha lineId a w :
    reachable w -> reachable (setLineAlpha lineId a w)
| reach_setAlpha a w :
    reachable w -> reachable (setAlpha a w)
| reach_resize width' height' w :
    reachable w -> reachable (resize width' height' w).

(** An index the chart data can be read at. *)
Definition validIndex (chartData : Data.StatisticalChart) (i : Z) : Prop :=
  0 <= i < Z.of_nat (List.length (Data.x chartData))
  /\ Forall (fun dataLine => i < Z.of_nat (List.length (Data.y dataLine)))
            (Data.lines chartData).

End Widget.

Arguments validIndex chartData i : simpl never.

(** ** The layout sum, written from its description

    The sum over the line slots below [k] of [alpha_i * unit], where
    [alpha_i] is the alpha of the recorded line [i] when there is one and [1]
    otherwise. *)

Definition slotAlpha (lines : list Line) (i : nat) : Q :=
  match nth_error lines i with
  | Some line => alpha line
  | None => 1%Q
  end.

Fixpoint Qsum (qs : list Q) : Q :=
  match qs with
  | [] => 0%Q
  | q :: rest => (q + Qsum rest)%Q
  end.

Definition layoutSum (lines : list Line) (unit : Z) (k : nat) : Q :=
  Qsum (map (fun i => (slotAlpha lines i * inject_Z unit)%Q) (seq 0 k)).


(** [lineYAt] as the description has it: header height, margin, and the
    layout sum rounded up. *)
Definition described_lineYAt (tk : Toolkit) (w : PointDetailsWidget) (k : Z)
  : Z :=
  height (font (_headerStyle w))
  + bottom (statisticsDetailsPopupMargins tk)
  + Qceiling (layoutSum (_lines w) (lineUnit tk w) (Z.to_nat k)).

(** The height [resizeHeight] gives the widget. *)
Definition totalHeight (tk : Toolkit) (w : PointDetailsWidget) : Z :=
  size_height (size (resizeHeight tk w)).


(** How the header of [w'] reads, for a timestamp and the formats of [w]. *)
Definition rendersLong (w : PointDetailsWidget) (timestamp : Z)
    (w' : PointDetailsWidget) : Prop :=
  _header w'
  = Text (_headerStyle w)
         (LocaleDateTime (fromSecsSinceEpoch timestamp) (_longFormat w)).

Definition rendersShort (w : PointDetailsWidget) (timestamp : Z)
    (w' : PointDetailsWidget) : Prop :=
  _header w'
  = Text (_headerStyle w)
         (LocaleDate (fromSecsSinceEpoch timestamp) (_shortFormat w)).

(** Some series of the chart is strictly positive at index [i]. *)
Definition hasPositiveAt (chartData : Data.StatisticalChart) (i : Z) : Prop :=
  Exists (fun dataLine =>
            exists v, nth_error (Data.y dataLine) (Z.to_nat i) = Some v /\ 0 < v)
         (Data.lines chartData).

(** ** A concrete popup *)

Module Sample.

Definition tk : Toolkit :=
  mkToolkit
    (mkTextStyle (mkFont 17))
    (mkTextStyle (mkFont 17))
    (mkMargins 8 8 8 8)
    (mkMargins 6 6 6 6)
    4
    (fun _ text =>
       match text with
       | QStr s => 7 * Z.of_nat (String.length s)
       | LocaleDateTime _ _ => 112
       | LocaleDate _ _ => 70
       | ArgLInt _ => 42
       | ArgLDouble _ => 42
       end)
    (mkSize 100 30)
    (-1)
    1%Q
    1%Q
    false.

(** Three points: 2 Jan 1970 00:00:00, 2 Jan 1970 13:00:00 and
    3 Jan 1970 00:00:30 (UTC), in milliseconds. *)
Definition chart : Data.StatisticalChart :=
  Data.mkChart
    [86400000; 133200000; 172830000]
    [Data.mkLine [5; 0; 7] 0 "Joined" "#4bd964";
     Data.mkLine [0; 0; -2] 1 "Left" "#fe3c30"].

Definition fresh (zoomEnabled : bool) : option PointDetailsWidget :=
  construct tk chart 7%Q zoomEnabled.

(** The popup right after construction, zoom enabled. *)
Definition w0 : PointDetailsWidget :=
  Eval vm_compute in
    match fresh true with Some w => w | None => with_xIndex 0
      (mkWidget true chart (mkTextStyle (mkFont 0)) (mkTextStyle (mkFont 0))
         "" "" NoText 0 (mkRect 0 0 0 0) (mkRect 0 0 0 0) [] 0%Q
         (mkSize 0 0) false 0)
    end.

(** After [setXIndex(0)]. *)
Definition w1 : PointDetailsWidget :=
  Eval vm_compute in
    match setXIndex tk 0 w0 with Some w => w | None => w0 end.

(** After [setXIndex(0)] and [setLineAlpha(1, 0.5)]. *)
Definition w2 : PointDetailsWidget :=
  Eval vm_compute in setLineAlpha tk 1 (1 # 2) w1.

End Sample.

(** ** paintEvent

    The painter is modelled by the calls made on it, in order.  Shadow
    style, box background and corner set are fixed style constants and are
    left out of the calls' arguments. *)

Record QPoint := mkPoint {
  point_x : Z;
  point_y : Z
}.

(** [QRect::topLeft] *)
Definition topLeft (r : QRect) : QPoint := mkPoint (rect_x r) (rect_y r).

(** [rect::right] of ui/rect.h: the left edge plus the width. *)
Definition rect_right (r : QRect) : Z := rect_x r + rect_width r.

(** [Ui::Text::PaintContext]: the fields this file names in its designated
    initialisers; [None] is a field left at its default. *)
Record PaintContext := mkPaintContext {
  position : QPoint;
  outerWidth : option Z;
  availableWidth : option Z
}.

Inductive Pen :=
| BoxTextFg                 (* st::boxTextFg *)
| PenColor (c : QColor).

Inductive PaintOp :=
| SetOpacity (opacity : Q)                         (* p.setOpacity *)
| ShadowPaint (box : QRect) (outer : Z)            (* Ui::Shadow::paint *)
| FillRoundRect (box : QRect)                      (* Ui::FillRoundRect *)
| SetPen (pen : Pen)                               (* p.setPen *)
| Draw (text : TextString) (context : PaintContext) (* text.draw *).

Section Paint.

Variable tk : Toolkit.

(** [maxWidth()] of a [Ui::Text::String] that was never given a text. *)
Variable emptyMaxWidth : Z.

Definition textMaxWidth (t : TextString) : Z :=
  match t with
  | NoText => emptyMaxWidth
  | Text st text => maxWidth tk st text
  end.

(** The calls of one round of the [for] loop, for [line = _lines[i]]. *)
Definition paintLine (w : PointDetailsWidget) (i : nat) (line : Line)
  : list PaintOp :=
  let lineY := lineYAt tk w (Z.of_nat i) in
  let valueWidth := textMaxWidth (value line) in
  let valueContext :=
    mkPaintContext
      (mkPoint (rect_right (_textRect w) - valueWidth) lineY) None None in
  let nameContext :=
    mkPaintContext
      (mkPoint (rect_x (_textRect w)) lineY)
      (Some (rect_width (_textRect w) - valueWidth))
      (Some (rect_width (_textRect w))) in
  [SetOpacity (alpha line * alpha line)%Q;
   SetPen BoxTextFg;
   Draw (name line) nameContext;
   SetPen (PenColor (valueColor line));
   Draw (value line) valueContext].

(** The [for] loop from index [i] on, [rest] being the lines from [i]. *)
Fixpoint paintLines (w : PointDetailsWidget) (i : nat) (rest : list Line)
  : list PaintOp :=
  match rest with
  | [] => []
  | line :: rest' => paintLine w i line ++ paintLines w (S i) rest'
  end.

Definition paintEvent (w : PointDetailsWidget) : list PaintOp :=
  let headerContext :=
    mkPaintContext (topLeft (_textRect w)) None
                   (Some (rect_width (_textRect w))) in
  [SetOpacity (_alpha w);
   ShadowPaint (_innerRect w) (width w);
   FillRoundRect (_innerRect w);
   SetPen BoxTextFg;
   Draw (_header w) headerContext]
  ++ paintLines w 0 (_lines w).

End Paint.

(** The alphas of all recorded lines lie in [0, 1]. *)
Definition alphasInUnit (lines : list Line) : Prop :=
  forall line, In line lines -> (0 <= alpha line <= 1)%Q.

(** The text rectangle starts where the size subscriber puts it. *)
Definition textTopSettled (tk : Toolkit) (w : PointDetailsWidget) : Prop :=
  rect_y (_textRect w)
  = top (statisticsDetailsPopupPadding tk)
    + top (statisticsDetailsPopupMargins tk).

(** ** lineYAt as float64 computes it

    [lineYAt] above adds the line heights up exactly.  The C++ works in
    [double]: every product [alpha * unit] and every partial sum is rounded
    to the nearest float64 (ties to even, no fused multiply-add), [std::ceil]
    is taken of the rounded sum, and the result is converted back to [int].
    [lineYAt64] follows that with the primitive binary64 numbers.  Here
    [int] has its 32-bit range; signed overflow and the conversion of a
    [double] outside that range (or of an infinity or NaN) are undefined and
    yield [None]. *)

Definition INT_MIN : Z := - 2 ^ 31.

Definition INT_MAX : Z := 2 ^ 31 - 1.

Definition inInt (n : Z) : bool := (INT_MIN <=? n) && (n <=? INT_MAX).

(** [a + b] on two [int]s. *)
Definition intAdd (a b : Z) : option Z :=
  if inInt a && inInt b && inInt (a + b) then Some (a + b) else None.

(** The [double] an integer converts to (exact for every [int]). *)
Definition doubleOfZ (n : Z) : PrimFloat.float :=
  FloatOps.SF2Prim
    (SpecFloat.binary_normalize FloatOps.prec FloatOps.emax n 0 false).

(** The [double] a recorded alpha is: the correctly rounded quotient of its
    numerator and denominator.  That is the alpha itself when it is the
    value [m / 2 ^ e] of a float64 with [e < 1024], and the float64 nearest
    to it when it is a fraction of two integers below [2 ^ 53] (the rational
    [1 # 5] is read as the literal [0.2]). *)
Definition alpha64 (a : Q) : PrimFloat.float :=
  PrimFloat.div (doubleOfZ (Qnum a)) (doubleOfZ (Z.pos (Qden a))).

(** The value of [std::ceil(f)], an integer; none for an infinity or NaN. *)
Definition ceil64 (f : PrimFloat.float) : option Z :=
  match FloatOps.Prim2SF f with
  | SpecFloat.S754_zero _ => Some 0
  | SpecFloat.S754_finite negative m e =>
      let n := if negative then Z.neg m else Z.pos m in
      Some (if 0 <=? e then n * 2 ^ e else - ((- n) / 2 ^ (- e)))
  | SpecFloat.S754_infinity _ => None
  | SpecFloat.S754_nan => None
  end.

(** The alpha read at slot [i] of the loop, as a [double]. *)
Definition alphaAt64 (lines : list Line) (i : nat) : PrimFloat.float :=
  if (List.length lines <=? i)%nat then PrimFloat.one
  else match nth_error lines i with
       | Some line => alpha64 (alpha line)
       | None => PrimFloat.one
       end.

(** One round of the [for] loop: the [int] sum of font height and spacing,
    converted, times the alpha, added to [linesHeight]. *)
Definition linesHeight64_step (tk : Toolkit) (w : PointDetailsWidget)
    (linesHeight : option PrimFloat.float) (i : nat)
  : option PrimFloat.float :=
  acc <- linesHeight ;;
  unit <- intAdd (height (font (_textStyle w)))
                 (statisticsDetailsPopupMidLineSpace tk) ;;
  Some (PrimFloat.add acc
          (PrimFloat.mul (alphaAt64 (_lines w) i) (doubleOfZ unit))).

Definition linesHeight64 (tk : Toolkit) (w : PointDetailsWidget) (index : Z)
  : option PrimFloat.float :=
  fold_left (linesHeight64_step tk w) (seq 0 (Z.to_nat index))
            (Some PrimFloat.zero).

(** The [return]: three [int]s added, then the [double] of the ceiling
    added and the sum converted to [int].  The ceiling is an integer; when
    the sum fits an [int] the [double] addition is exact, and when it does
    not the conversion is undefined. *)
Definition lineYAt64 (tk : Toolkit) (w : PointDetailsWidget) (index : Z)
  : option Z :=
  if inInt index then
    linesHeight <- linesHeight64 tk w index ;;
    y <- intAdd (rect_y (_textRect w)) (height (font (_headerStyle w))) ;;
    y <- intAdd y (bottom (statisticsDetailsPopupMargins tk)) ;;
    ceiling <- ceil64 linesHeight ;;
    if inInt (y + ceiling) then Some (y + ceiling) else None
  else None.

(** *** The same, written from its description

    The running float64 sum over the slots below [k], in slot order, of the
    slot's alpha (that of the recorded line, [1] past the recorded lines)
    times the line unit. *)

Definition slotAlpha64 (lines : list Line) (i : nat) : PrimFloat.float :=
  match nth_error lines i with
  | Some line => alpha64 (alpha line)
  | None => PrimFloat.one
  end.

Fixpoint layoutSum64 (lines : list Line) (unit : PrimFloat.float) (k : nat)
  : PrimFloat.float :=
  match k with
  | O => PrimFloat.zero
  | S k' =>
      PrimFloat.add (layoutSum64 lines unit k')
                    (PrimFloat.mul (slotAlpha64 lines k') unit)
  end.

(** All [int] operands and [int] sums of [lineYAt(k)] are in range; the
    line unit is only formed when the loop runs. *)
Definition intsInRange (tk : Toolkit) (w : PointDetailsWidget) (k : Z) : bool :=
  let y := rect_y (_textRect w) in
  let header := height (font (_headerStyle w)) in
  let margin := bottom (statisticsDetailsPopupMargins tk) in
  let text := height (font (_textStyle w)) in
  let space := statisticsDetailsPopupMidLineSpace tk in
  inInt k
  && inInt y && inInt header && inInt margin
  && inInt (y + header) && inInt (y + header + margin)
  && ((k <=? 0) || (inInt text && inInt space && inInt (text + space))).

(** Text top, header height and margin, plus the rounded-up float64 sum,
    when everything is in [int] range. *)
Definition described_lineYAt64 (tk : Toolkit) (w : PointDetailsWidget) (k : Z)
  : option Z :=
  if intsInRange tk w k then
    match ceil64 (layoutSum64 (_lines w) (doubleOfZ (lineUnit tk w))
                              (Z.to_nat k)) with
    | Some ceiling =>
        let y := rect_y (_textRect w)
                 + height (font (_headerStyle w))
                 + bottom (statisticsDetailsPopupMargins tk)
                 + ceiling in
        if inInt y then Some y else None
    | None => None
    end
  else None.

(** *** A popup whose two lines are at 0.2 and 0.8 *)

Module Sample64.

(** The float64 values of the literals [0.2] and [0.8], as rationals. *)
Definition alpha_0_2 : Q := 3602879701896397 # 18014398509481984.

Definition alpha_0_8 : Q := 3602879701896397 # 4503599627370496.

(** [Sample.w1] with the alphas of its lines set to them. *)
Definition w3 : PointDetailsWidget :=
  Eval vm_compute in
    withLines
      (setLineAlpha_loop 1 alpha_0_8
         (setLineAlpha_loop 0 alpha_0_2 (_lines Sample.w1)))
      Sample.w1.

End Sample64.

Example sample_fresh : Sample.fresh true = Some Sample.w0.
Proof. reflexivity. Qed.

Example sample_w0_geometry :
  size Sample.w0 = mkSize 152 89
  /\ rect_y (_textRect Sample.w0) = 14
  /\ _textRect (onSize Sample.tk (size Sample.w0) Sample.w0)
     = mkRect 14 14 124 61.
Proof. repeat split. Qed.

Example sample_w1 : setXIndex Sample.tk 0 Sample.w0 = Some Sample.w1.
Proof. reflexivity. Qed.

Example sample_w1_lines :
  _lines Sample.w1
  = [mkLine 0 (Text (mkTextStyle (mkFont 17)) (QStr "Joined"))
              (Text (mkTextStyle (mkFont 17)) (ArgLInt 5))
              (QColorOf "#4bd964") 1%Q;
     mkLine 1 (Text (mkTextStyle (mkFont 17)) (QStr "Left"))
              (Text (mkTextStyle (mkFont 17)) (ArgLInt 0))
              (QColorOf "#fe3c30") 1%Q].
Proof. reflexivity. Qed.

Example sample_w1_header :
  _header Sample.w1
  = Text (mkTextStyle (mkFont 17)) (LocaleDate 86400 "ddd, MMM d").
Proof. reflexivity. Qed.

Example sample_header_long :
  option_map _header (setXIndex Sample.tk 1 Sample.w0)
  = Some (Text (mkTextStyle (mkFont 17))
               (LocaleDateTime 133200 "ddd, MMM d hh:mm")).
Proof. reflexivity. Qed.

Example sample_out_of_range : setXIndex Sample.tk 3 Sample.w0 = None.
Proof. reflexivity. Qed.

Example sample_w2_height :
  size Sample.w2 = mkSize 152 (14 + 17 + 8 + 32 + 8).
Proof. reflexivity. Qed.

(** ** Facts about the pieces *)

Lemma truthy_true_iff (n : Z) : truthy n = true <-> n <> 0.
Proof.
  unfold truthy. rewrite negb_true_iff, Z.eqb_neq. tauto.
Qed.

Lemma truthy_false_iff (n : Z) : truthy n = false <-> n = 0.
Proof.
  unfold truthy. rewrite negb_false_iff, Z.eqb_eq. tauto.
Qed.

Lemma utcSecondOfDay_range (secs : Z) : 0 <= utcSecondOfDay secs < 86400.
Proof. unfold utcSecondOfDay. apply Z.mod_pos_bound. lia. Qed.

(** Hour or minute is nonzero exactly from 00:01:00 on. *)
Lemma hour_or_minute_iff (secs : Z) :
  utcHour secs <> 0 \/ utcMinute secs <> 0 <-> 60 <= utcSecondOfDay secs.
Proof.
  unfold utcHour, utcMinute.
  pose proof (utcSecondOfDay_range secs) as Hd.
  set (d := utcSecondOfDay secs) in *.
  split.
  - intros [Hh | Hm].
    + destruct (Z_lt_ge_dec d 3600) as [Hlt | Hge]; [|lia].
      rewrite Z.div_small in Hh by lia. congruence.
    + destruct (Z_lt_ge_dec d 60) as [Hlt | Hge]; [|lia].
      rewrite (Z.mod_small d 3600), Z.div_small in Hm by lia. congruence.
  - intros H60.
    destruct (Z_lt_ge_dec d 3600) as [Hlt | Hge].
    + right. rewrite Z.mod_small by lia.
      assert (0 < d / 60) by (apply Z.div_str_pos; lia). lia.
    + left. assert (0 < d / 3600) by (apply Z.div_str_pos; lia). lia.
Qed.

Lemma FormatTimestamp_long_iff (timestamp : Z) (longFormat shortFormat : string) :
  FormatTimestamp timestamp longFormat shortFormat
  = LocaleDateTime (fromSecsSinceEpoch timestamp) longFormat
  <-> utcHour (fromSecsSinceEpoch timestamp) <> 0
      \/ utcMinute (fromSecsSinceEpoch timestamp) <> 0.
Proof.
  unfold FormatTimestamp.
  destruct (truthy (utcHour _) || truthy (utcMinute _)) eqn:E.
  - apply orb_true_iff in E. rewrite !truthy_true_iff in E. tauto.
  - apply orb_false_iff in E. rewrite !truthy_false_iff in E.
    split; [discriminate | lia].
Qed.

Lemma FormatTimestamp_short_iff (timestamp : Z) (longFormat shortFormat : string) :
  FormatTimestamp timestamp longFormat shortFormat
  = LocaleDate (fromSecsSinceEpoch timestamp) shortFormat
  <-> utcHour (fromSecsSinceEpoch timestamp) = 0
      /\ utcMinute (fromSecsSinceEpoch timestamp) = 0.
Proof.
  unfold FormatTimestamp.
  destruct (truthy (utcHour _) || truthy (utcMinute _)) eqn:E.
  - apply orb_true_iff in E. rewrite !truthy_true_iff in E.
    split; [discriminate | lia].
  - apply orb_false_iff in E. rewrite !truthy_false_iff in E. tauto.
Qed.

Section SetXIndexFacts.

Variable tk : Toolkit.

Lemma setXIndex_loop_returns (textStyle : TextStyle) (i : nat)
    (dataLines : list Data.Line) :
  Forall (fun dataLine => (i < List.length (Data.y dataLine))%nat) dataLines ->
  forall lines flag,
  exists r, setXIndex_loop tk textStyle i dataLines lines flag = Some r.
Proof.
  induction 1 as [| dataLine rest Hlt _ IH]; intros lines flag; simpl.
  - eauto.
  - destruct (nth_error (Data.y dataLine) i) as [v |] eqn:E.
    + simpl. apply IH.
    + apply nth_error_None in E. lia.
Qed.

(** The flag ends up set iff it was set or some series is positive at [i]. *)
Lemma setXIndex_loop_flag (textStyle : TextStyle) (i : nat)
    (dataLines : list Data.Line) :
  forall lines flag r,
  setXIndex_loop tk textStyle i dataLines lines flag = Some r ->
  (snd r = true
   <-> flag = true
       \/ Exists (fun dataLine =>
                    exists v, nth_error (Data.y dataLine) i = Some v /\ 0 < v)
                 dataLines).
Proof.
  induction dataLines as [| dataLine rest IH]; intros lines flag r; simpl.
  - intros [= <-]. simpl. rewrite Exists_nil. tauto.
  - destruct (nth_error (Data.y dataLine) i) as [v |] eqn:E; [| discriminate].
    simpl. intros Hr. rewrite (IH _ _ _ Hr), Exists_cons, orb_true_iff, Z.ltb_lt.
    split.
    + intros [[Hf | Hv] | Hex]; eauto.
    + intros [Hf | [(v' & Hv' & Hpos) | Hex]]; auto.
      left. right. congruence.
Qed.

(** What a call with a non-negative index computes, step by step. *)
Lemma setXIndex_nonneg (w : PointDetailsWidget) (i : Z) (w' : PointDetailsWidget) :
  0 <= i ->
  setXIndex tk i w = Some w' ->
  exists timestamp r,
    nth_error (Data.x (_chartData w)) (Z.to_nat i) = Some timestamp
    /\ setXIndex_loop tk (_textStyle w) (Z.to_nat i)
         (Data.lines (_chartData w)) [] false = Some r
    /\ w' = mkWidget (_zoomEnabled w) (_chartData w) (_textStyle w)
              (_headerStyle w) (_longFormat w) (_shortFormat w)
              (setText (_headerStyle w)
                 (FormatTimestamp timestamp (_longFormat w) (_shortFormat w)))
              i (_innerRect w) (_textRect w)
              (fst r) (_alpha w) (size w)
              (negb (_zoomEnabled w && snd r))
              (calculatedWidth w).
Proof.
  intros Hi. unfold setXIndex.
  destruct (i <? 0) eqn:E; [apply Z.ltb_lt in E; lia |].
  simpl.
  destruct (nth_error (Data.x (_chartData w)) (Z.to_nat i)) as [timestamp |];
    [| discriminate].
  simpl.
  destruct (setXIndex_loop tk (_textStyle w) (Z.to_nat i)
              (Data.lines (_chartData w)) [] false) as [r |]; [| discriminate].
  simpl. intros [= <-]. eauto.
Qed.

(** On an index the chart can be read at the call returns. *)
Lemma setXIndex_returns (w : PointDetailsWidget) (i : Z) :
  validIndex (_chartData w) i ->
  exists w', setXIndex tk i w = Some w'.
Proof.
  intros [[Hlo Hhi] Hy]. unfold setXIndex.
  destruct (i <? 0) eqn:E; [apply Z.ltb_lt in E; lia |].
  simpl.
  destruct (nth_error (Data.x (_chartData w)) (Z.to_nat i)) as [timestamp |] eqn:Ex.
  2:{ apply nth_error_None in Ex. lia. }
  simpl.
  destruct (setXIndex_loop_returns (_textStyle w) (Z.to_nat i)
              (Data.lines (_chartData w))) with (lines := @nil Line) (flag := false)
    as [r Hr].
  { eapply Forall_impl; [| exact Hy]. simpl. intros dataLine Hlt. lia. }
  rewrite Hr. simpl. eauto.
Qed.

Lemma setXIndex_negative (w : PointDetailsWidget) (i : Z) :
  i < 0 -> setXIndex tk i w = Some (with_xIndex i w).
Proof.
  intros Hi. unfold setXIndex.
  destruct (i <? 0) eqn:E; [reflexivity | apply Z.ltb_ge in E; lia].
Qed.

End SetXIndexFacts.

Lemma sample_w0_reachable : reachable Sample.tk Sample.w0.
Proof.
  exact (reach_construct Sample.tk Sample.chart 7%Q true Sample.w0 eq_refl).
Qed.

Lemma sample_w1_reachable : reachable Sample.tk Sample.w1.
Proof.
  exact (reach_setXIndex Sample.tk 0 Sample.w0 Sample.w1
           sample_w0_reachable eq_refl).
Qed.

Lemma sample_w2_reachable : reachable Sample.tk Sample.w2.
Proof.
  exact (reach_setLineAlpha Sample.tk 1 (1 # 2) Sample.w1 sample_w1_reachable).
Qed.

(** ** The header *)

(** C1, as amended: for an index the chart can be read at, [setXIndex]
    returns, and the header it leaves is the long (date and time) rendering
    of [x[i]] exactly when the UTC hour or the UTC minute of [x[i]] is
    nonzero, that is, when the UTC time of day is 00:01:00 or later; it is
    the short (date only) rendering exactly when both are zero.  The seconds
    are not looked at. *)
Theorem setXIndex_header_format (tk : Toolkit) (w : PointDetailsWidget) (i : Z) :
  validIndex (_chartData w) i ->
  exists timestamp w',
    nth_error (Data.x (_chartData w)) (Z.to_nat i) = Some timestamp
    /\ setXIndex tk i w = Some w'
    /\ (rendersLong w timestamp w'
        <-> utcHour (fromSecsSinceEpoch timestamp) <> 0
            \/ utcMinute (fromSecsSinceEpoch timestamp) <> 0)
    /\ (rendersLong w timestamp w'
        <-> 60 <= utcSecondOfDay (fromSecsSinceEpoch timestamp))
    /\ (rendersShort w timestamp w'
        <-> utcHour (fromSecsSinceEpoch timestamp) = 0
            /\ utcMinute (fromSecsSinceEpoch timestamp) = 0).
Proof.
  intros Hvalid.
  destruct (setXIndex_returns tk w i Hvalid) as [w' Hw'].
  destruct Hvalid as [[Hlo _] _].
  destruct (setXIndex_nonneg tk w i w' Hlo Hw') as (timestamp & r & Hx & _ & ->).
  exists timestamp. eexists.
  split; [exact Hx |]. split; [exact Hw' |].
  unfold rendersLong, rendersShort, setText; simpl.
  assert (Hinj : forall a b : QString,
             Text (_headerStyle w) a = Text (_headerStyle w) b <-> a = b).
  { intros a b. split; [now intros [= ->] | now intros ->]. }
  rewrite !Hinj, FormatTimestamp_long_iff, FormatTimestamp_short_iff.
  rewrite hour_or_minute_iff. tauto.
Qed.

Lemma sample_valid_0 : validIndex (_chartData Sample.w0) 0.
Proof.
  split; [simpl; lia | repeat constructor; simpl; lia].
Defined.

Lemma sample_valid_1 : validIndex (_chartData Sample.w0) 1.
Proof.
  split; [simpl; lia | repeat constructor; simpl; lia].
Defined.

Lemma sample_valid_2 : validIndex (_chartData Sample.w0) 2.
Proof.
  split; [simpl; lia | repeat constructor; simpl; lia].
Defined.

Lemma setXIndex_header_format_witness :
  exists timestamp w',
    nth_error (Data.x Sample.chart) 1 = Some timestamp
    /\ setXIndex Sample.tk 1 Sample.w0 = Some w'
    /\ (rendersLong Sample.w0 timestamp w'
        <-> 60 <= utcSecondOfDay (fromSecsSinceEpoch timestamp)).
Proof.
  destruct (setXIndex_header_format Sample.tk Sample.w0 1 sample_valid_1)
    as (timestamp & w' & Hx & Hw' & _ & Hlong & _).
  exists timestamp, w'. auto.
Defined.

(** C1 fails as stated: the third point of the sample chart is
    3 Jan 1970 00:00:30 UTC, whose time of day is 30 seconds, not zero, yet
    the header is the short rendering and not the long one. *)
Lemma setXIndex_header_short_with_seconds :
  validIndex (_chartData Sample.w0) 2
  /\ nth_error (Data.x (_chartData Sample.w0)) 2 = Some 172830000
  /\ utcSecondOfDay (fromSecsSinceEpoch 172830000) = 30
  /\ exists w',
       setXIndex Sample.tk 2 Sample.w0 = Some w'
       /\ rendersShort Sample.w0 172830000 w'
       /\ ~ rendersLong Sample.w0 172830000 w'.
Proof.
  split; [exact sample_valid_2 |].
  split; [reflexivity |].
  split; [reflexivity |].
  eexists. split; [reflexivity |].
  split; [reflexivity | discriminate].
Qed.

(** ** Negative indices *)

(** C2, as amended: for a negative index [setXIndex] returns, stores the
    index, and changes no other part of the widget: header, lines, mouse
    transparency, geometry, opacity and the construction-time members are
    as before. *)
Theorem setXIndex_negative_frame (tk : Toolkit) (w : PointDetailsWidget) (i : Z) :
  i < 0 ->
  exists w',
    setXIndex tk i w = Some w'
    /\ _xIndex w' = i
    /\ _header w' = _header w
    /\ _lines w' = _lines w
    /\ WA_TransparentForMouseEvents w' = WA_TransparentForMouseEvents w
    /\ size w' = size w
    /\ _innerRect w' = _innerRect w
    /\ _textRect w' = _textRect w
    /\ _alpha w' = _alpha w
    /\ _zoomEnabled w' = _zoomEnabled w
    /\ _chartData w' = _chartData w
    /\ _textStyle w' = _textStyle w
    /\ _headerStyle w' = _headerStyle w
    /\ _longFormat w' = _longFormat w
    /\ _shortFormat w' = _shortFormat w
    /\ calculatedWidth w' = calculatedWidth w.
Proof.
  intros Hi. exists (with_xIndex i w).
  split; [now apply setXIndex_negative |].
  simpl. repeat split.
Qed.

Lemma setXIndex_negative_frame_witness :
  exists w',
    setXIndex Sample.tk (-1) Sample.w1 = Some w'
    /\ _xIndex w' = -1
    /\ _header w' = _header Sample.w1
    /\ _lines w' = _lines Sample.w1.
Proof.
  destruct (setXIndex_negative_frame Sample.tk Sample.w1 (-1))
    as (w' & Hw' & Hx & Hh & Hl & _); [lia |].
  exists w'. auto.
Defined.

(** C2 fails as stated: on the sample popup showing point 0,
    [setXIndex(-1)] leaves a state that differs from the one before, the
    stored index having gone from 0 to -1. *)
Lemma setXIndex_negative_not_noop :
  reachable Sample.tk Sample.w1
  /\ xIndex Sample.w1 = 0
  /\ exists w',
       setXIndex Sample.tk (-1) Sample.w1 = Some w'
       /\ xIndex w' = -1
       /\ w' <> Sample.w1.
Proof.
  split; [exact sample_w1_reachable |].
  split; [reflexivity |].
  eexists. split; [reflexivity |].
  split; [reflexivity |].
  intros H. apply (f_equal _xIndex) in H. discriminate H.
Qed.

(** C9: whenever [setXIndex(i)] returns, [xIndex()] is [i]; it returns for
    every negative [i], then leaving header, lines and mouse transparency
    as they were, and for every index the chart can be read at. *)
Theorem xIndex_after_setXIndex (tk : Toolkit) (w : PointDetailsWidget) (i : Z) :
  (forall w', setXIndex tk i w = Some w' -> xIndex w' = i)
  /\ (i < 0 ->
      exists w',
        setXIndex tk i w = Some w'
        /\ xIndex w' = i
        /\ _header w' = _header w
        /\ _lines w' = _lines w
        /\ WA_TransparentForMouseEvents w' = WA_TransparentForMouseEvents w)
  /\ (validIndex (_chartData w) i ->
      exists w', setXIndex tk i w = Some w' /\ xIndex w' = i).
Proof.
  assert (Hret : forall w', setXIndex tk i w = Some w' -> xIndex w' = i).
  { intros w' Hw'. destruct (Z_lt_ge_dec i 0) as [Hneg | Hpos].
    - rewrite setXIndex_negative in Hw' by assumption.
      now injection Hw' as <-.
    - destruct (setXIndex_nonneg tk w i w') as (? & ? & _ & _ & ->);
        [lia | assumption | reflexivity]. }
  split; [exact Hret |]. split.
  - intros Hi. exists (with_xIndex i w).
    split; [now apply setXIndex_negative |]. repeat split.
  - intros Hvalid. destruct (setXIndex_returns tk w i Hvalid) as [w' Hw'].
    exists w'. auto.
Qed.

Lemma xIndex_after_setXIndex_witness :
  (exists w', setXIndex Sample.tk (-5) Sample.w1 = Some w' /\ xIndex w' = -5)
  /\ (exists w', setXIndex Sample.tk 2 Sample.w1 = Some w' /\ xIndex w' = 2).
Proof.
  destruct (xIndex_after_setXIndex Sample.tk Sample.w1 (-5)) as (_ & Hneg & _).
  destruct (xIndex_after_setXIndex Sample.tk Sample.w1 2) as (_ & _ & Hval).
  split.
  - destruct Hneg as (w' & Hw' & Hx & _); [lia |]. exists w'. auto.
  - apply Hval. exact sample_valid_2.
Defined.

(** ** Mouse transparency *)

(** C3: for an index the chart can be read at, [setXIndex] returns; with
    zoom disabled the widget is then transparent for mouse events whatever
    the values are, and with zoom enabled it is not transparent exactly when
    some series is strictly positive at the index. *)
Theorem setXIndex_mouse_transparency (tk : Toolkit) (w : PointDetailsWidget)
    (i : Z) :
  validIndex (_chartData w) i ->
  exists w',
    setXIndex tk i w = Some w'
    /\ (_zoomEnabled w = false -> WA_TransparentForMouseEvents w' = true)
    /\ (_zoomEnabled w = true ->
        (WA_TransparentForMouseEvents w' = false
         <-> hasPositiveAt (_chartData w) i)).
Proof.
  intros Hvalid.
  destruct (setXIndex_returns tk w i Hvalid) as [w' Hw'].
  destruct Hvalid as [[Hlo _] _].
  destruct (setXIndex_nonneg tk w i w' Hlo Hw') as (timestamp & r & _ & Hr & ->).
  eexists. split; [exact Hw' |]. simpl.
  pose proof (setXIndex_loop_flag tk _ _ _ _ _ _ Hr) as Hflag.
  split.
  - intros ->. reflexivity.
  - intros ->. simpl. rewrite negb_false_iff, Hflag.
    unfold hasPositiveAt. split; [intros [Hf | Hex] | intros Hex].
    + discriminate.
    + exact Hex.
    + right. exact Hex.
Qed.

Lemma setXIndex_mouse_transparency_witness :
  exists w',
    setXIndex Sample.tk 0 Sample.w0 = Some w'
    /\ (WA_TransparentForMouseEvents w' = false
        <-> hasPositiveAt Sample.chart 0).
Proof.
  destruct (setXIndex_mouse_transparency Sample.tk Sample.w0 0 sample_valid_0)
    as (w' & Hw' & _ & Hzoom).
  exists w'. split; [exact Hw' |]. apply Hzoom. reflexivity.
Defined.

Example sample_zoom_no_positive :
  option_map WA_TransparentForMouseEvents (setXIndex Sample.tk 1 Sample.w0)
  = Some true.
Proof. reflexivity. Qed.

(** ** Idempotence *)

(** C8: for an index the chart can be read at, a second [setXIndex(i)]
    right after the first returns and leaves the same header and the same
    line list as the first (indeed the same widget state). *)
Theorem setXIndex_idempotent (tk : Toolkit) (w : PointDetailsWidget) (i : Z) :
  validIndex (_chartData w) i ->
  exists w1 w2,
    setXIndex tk i w = Some w1
    /\ setXIndex tk i w1 = Some w2
    /\ _header w2 = _header w1
    /\ _lines w2 = _lines w1
    /\ w2 = w1.
Proof.
  intros Hvalid.
  destruct (setXIndex_returns tk w i Hvalid) as [w1 Hw1].
  destruct Hvalid as [[Hlo _] _].
  destruct (setXIndex_nonneg tk w i w1 Hlo Hw1) as (timestamp & r & Hx & Hr & E).
  exists w1, w1. split; [exact Hw1 |].
  assert (H2 : setXIndex tk i w1 = Some w1).
  { rewrite E at 1. unfold setXIndex.
    destruct (i <? 0) eqn:Eneg; [apply Z.ltb_lt in Eneg; lia |].
    simpl. rewrite Hx. simpl. rewrite Hr. simpl. now rewrite E. }
  auto.
Qed.

Lemma setXIndex_idempotent_witness :
  exists w1 w2,
    setXIndex Sample.tk 2 Sample.w2 = Some w1
    /\ setXIndex Sample.tk 2 w1 = Some w2
    /\ _header w2 = _header w1
    /\ _lines w2 = _lines w1.
Proof.
  destruct (setXIndex_idempotent Sample.tk Sample.w2 2 sample_valid_2)
    as (w1 & w2 & H1 & H2 & Hh & Hl & _).
  exists w1, w2. auto.
Defined.

(** ** setLineAlpha *)

Lemma setLineAlpha_loop_map (lineId : Z) (a : Q) (lines : list Line) :
  setLineAlpha_loop lineId a lines
  = map (fun line => if id line =? lineId then withAlpha a line else line)
        lines.
Proof.
  induction lines as [| line rest IH]; simpl; [reflexivity | now rewrite IH].
Qed.

Lemma setLineAlpha_lines (tk : Toolkit) (lineId : Z) (a : Q)
    (w : PointDetailsWidget) :
  _lines (setLineAlpha tk lineId a w) = setLineAlpha_loop lineId a (_lines w).
Proof. reflexivity. Qed.

Lemma setLineAlpha_loop_length (lineId : Z) (a : Q) (lines : list Line) :
  List.length (setLineAlpha_loop lineId a lines) = List.length lines.
Proof. rewrite setLineAlpha_loop_map. apply length_map. Qed.

Lemma setLineAlpha_loop_nth (lineId : Z) (a : Q) (lines : list Line) (n : nat) :
  nth_error (setLineAlpha_loop lineId a lines) n
  = option_map
      (fun line => if id line =? lineId then withAlpha a line else line)
      (nth_error lines n).
Proof. rewrite setLineAlpha_loop_map. apply nth_error_map. Qed.

(** C7: when no recorded line has the given id, [setLineAlpha] leaves the
    line list as it was, every field of every line included. *)
Theorem setLineAlpha_unknown_id (tk : Toolkit) (w : PointDetailsWidget)
    (lineId : Z) (a : Q) :
  (forall line, In line (_lines w) -> id line <> lineId) ->
  _lines (setLineAlpha tk lineId a w) = _lines w.
Proof.
  rewrite setLineAlpha_lines.
  induction (_lines w) as [| line rest IH]; intros Hno; simpl.
  - reflexivity.
  - destruct (id line =? lineId) eqn:E.
    + apply Z.eqb_eq in E. exfalso. apply (Hno line); [now left | exact E].
    + f_equal. apply IH. intros line' Hin. apply Hno. now right.
Qed.

Lemma setLineAlpha_unknown_id_witness :
  _lines (setLineAlpha Sample.tk 7 (1 # 4) Sample.w2) = _lines Sample.w2.
Proof.
  apply (setLineAlpha_unknown_id Sample.tk Sample.w2 7 (1 # 4)).
  intros line [<- | [<- | []]]; discriminate.
Defined.

(** C10: [setLineAlpha(id, alpha)] gives the alpha to every recorded line
    with that id, duplicates included, and keeps the rest: the number and
    order of the lines, the id, name, value and colour of each, the alpha of
    each line with another id, the header, the stored index and the width. *)
Theorem setLineAlpha_frame (tk : Toolkit) (w : PointDetailsWidget)
    (lineId : Z) (a : Q) :
  List.length (_lines (setLineAlpha tk lineId a w)) = List.length (_lines w)
  /\ (forall n line,
        nth_error (_lines w) n = Some line ->
        exists line',
          nth_error (_lines (setLineAlpha tk lineId a w)) n = Some line'
          /\ id line' = id line
          /\ name line' = name line
          /\ value line' = value line
          /\ valueColor line' = valueColor line
          /\ (id line = lineId -> alpha line' = a)
          /\ (id line <> lineId -> alpha line' = alpha line))
  /\ _header (setLineAlpha tk lineId a w) = _header w
  /\ _xIndex (setLineAlpha tk lineId a w) = _xIndex w
  /\ width (setLineAlpha tk lineId a w) = width w.
Proof.
  split; [rewrite setLineAlpha_lines; apply setLineAlpha_loop_length |].
  split; [| repeat split].
  intros n line Hn.
  rewrite setLineAlpha_lines, setLineAlpha_loop_nth, Hn. simpl.
  eexists. split; [reflexivity |].
  destruct (id line =? lineId) eqn:E.
  - apply Z.eqb_eq in E. simpl. repeat split; congruence.
  - apply Z.eqb_neq in E. repeat split; congruence.
Qed.

Lemma setLineAlpha_frame_witness :
  exists line',
    nth_error (_lines (setLineAlpha Sample.tk 1 (1 # 4) Sample.w1)) 1
    = Some line'
    /\ alpha line' = 1 # 4.
Proof.
  destruct (setLineAlpha_frame Sample.tk Sample.w1 1 (1 # 4)) as (_ & Hnth & _).
  destruct (Hnth 1%nat _ eq_refl) as (line' & Hline' & _ & _ & _ & _ & Ha & _).
  exists line'. split; [exact Hline' | apply Ha; reflexivity].
Defined.

(** Two lines with one id both take the alpha. *)
Example setLineAlpha_duplicates :
  map alpha
    (setLineAlpha_loop 4 (1 # 3)
       [mkLine 4 NoText NoText (QColorOf "a") 1%Q;
        mkLine 5 NoText NoText (QColorOf "b") 1%Q;
        mkLine 4 NoText NoText (QColorOf "c") 1%Q])
  = [1 # 3; 1%Q; 1 # 3].
Proof. reflexivity. Qed.

(** ** Layout *)

Lemma alphaAt_slotAlpha (lines : list Line) (i : nat) :
  alphaAt lines i = slotAlpha lines i.
Proof.
  unfold alphaAt, slotAlpha.
  destruct (List.length lines <=? i)%nat eqn:E; [| reflexivity].
  apply Nat.leb_le, nth_error_None in E. now rewrite E.
Qed.

Lemma Qsum_app (qs rs : list Q) : (Qsum (qs ++ rs) == Qsum qs + Qsum rs)%Q.
Proof.
  induction qs as [| q qs IH]; simpl; [ring | rewrite IH; ring].
Qed.

(** The loop of [lineYAt] adds up the layout sum. *)
Lemma linesHeight_layoutSum (tk : Toolkit) (w : PointDetailsWidget) (index : Z) :
  (linesHeight tk w index
   == layoutSum (_lines w) (lineUnit tk w) (Z.to_nat index))%Q.
Proof.
  unfold linesHeight, layoutSum.
  induction (Z.to_nat index) as [| n IH].
  - simpl. reflexivity.
  - rewrite seq_S, fold_left_app, map_app, Qsum_app. simpl.
    rewrite IH, alphaAt_slotAlpha. ring.
Qed.


Lemma onSize_textRect_width (tk : Toolkit) (s : QSize) (w : PointDetailsWidget) :
  rect_width (_textRect (onSize tk s w))
  = (if isNull s then calculatedWidth w else size_width s)
    - m_sum_h (statisticsDetailsPopupPadding tk)
    - m_sum_h (statisticsDetailsPopupMargins tk).
Proof.
  unfold onSize, m_sum_h.
  destruct (isNull s);
    cbn [_textRect rect_width marginsRemoved Rect Size size_width]; lia.
Qed.

Lemma onSize_textRect_y (tk : Toolkit) (s : QSize) (w : PointDetailsWidget) :
  rect_y (_textRect (onSize tk s w))
  = top (statisticsDetailsPopupPadding tk)
    + top (statisticsDetailsPopupMargins tk).
Proof. unfold onSize. destruct (isNull s); simpl; lia. Qed.

(** What every state the widget can be in has: the text rectangle starts
    below the top padding and top margin, and the two styles are the ones
    the constructor picked. *)
Lemma reachable_invariant (tk : Toolkit) (w : PointDetailsWidget) :
  reachable tk w ->
  rect_y (_textRect w)
  = top (statisticsDetailsPopupPadding tk)
    + top (statisticsDetailsPopupMargins tk)
  /\ _headerStyle w = semiboldTextStyle tk
  /\ _textStyle w = statisticsDetailsPopupStyle tk.
Proof.
  induction 1 as [chartData maxAbs zoom w Hc
                 | i w w' _ IH Hset
                 | lineId a w _ IH
                 | a w _ IH
                 | width' height' w _ IH].
  - unfold construct in Hc.
    destruct (hd_error (Data.x chartData)) as [front |]; [| discriminate].
    simpl in Hc. injection Hc as <-.
    split; [apply onSize_textRect_y | split; reflexivity].
  - destruct (Z_lt_ge_dec i 0) as [Hneg | Hpos].
    + rewrite setXIndex_negative in Hset by assumption.
      injection Hset as <-. exact IH.
    + destruct (setXIndex_nonneg tk w i w') as (? & ? & _ & _ & ->);
        [lia | assumption | exact IH].
  - split; [apply onSize_textRect_y | exact (proj2 IH)].
  - exact IH.
  - split; [apply onSize_textRect_y | exact (proj2 IH)].
Qed.

(** C4, as amended: in every state the widget can be in, [lineYAt(0)] is
    the top padding plus the top margin (where the text rectangle starts)
    plus the header font height plus the bottom margin. *)
Theorem lineYAt_0 (tk : Toolkit) (w : PointDetailsWidget) :
  reachable tk w ->
  lineYAt tk w 0
  = top (statisticsDetailsPopupPadding tk)
    + top (statisticsDetailsPopupMargins tk)
    + height (font (semiboldTextStyle tk))
    + bottom (statisticsDetailsPopupMargins tk).
Proof.
  intros Hreach.
  destruct (reachable_invariant tk w Hreach) as (Hy & Hh & _).
  unfold lineYAt, linesHeight. rewrite Hy, Hh.
  change (Qceiling (fold_left _ (seq 0 (Z.to_nat 0)) 0%Q)) with 0. lia.
Qed.

Lemma lineYAt_0_witness : lineYAt Sample.tk Sample.w2 0 = 6 + 8 + 17 + 8.
Proof.
  exact (lineYAt_0 Sample.tk Sample.w2 sample_w2_reachable).
Defined.

(** C4 fails as stated: right after construction with the sample styles
    [lineYAt(0)] is 39, while header font height plus margin is 25; the
    difference is the top of the text rectangle. *)
Lemma lineYAt_0_has_text_top :
  reachable Sample.tk Sample.w0
  /\ lineYAt Sample.tk Sample.w0 0 = 39
  /\ height (font (_headerStyle Sample.w0))
     + bottom (statisticsDetailsPopupMargins Sample.tk) = 25
  /\ rect_y (_textRect Sample.w0) = 14.
Proof.
  split; [exact sample_w0_reachable |].
  repeat split.
Qed.

(** With the sum taken exactly, [lineYAt(k)] is the top of the text
    rectangle plus the header font height plus the bottom margin plus the
    rounded-up sum, over the slots below [k], of the slot's alpha (that of
    the recorded line, [1] past the recorded lines) times text font height
    plus spacing.  [lineYAt64_described] below is the float64 counterpart. *)
Lemma lineYAt_layoutSum (tk : Toolkit) (w : PointDetailsWidget) (k : Z) :
  lineYAt tk w k = rect_y (_textRect w) + described_lineYAt tk w k.
Proof.
  unfold lineYAt, described_lineYAt.
  rewrite (Qceiling_comp _ _ (linesHeight_layoutSum tk w k)). lia.
Qed.

(** With the second of two lines at alpha 1/2 the sample popup has
    [lineYAt(2) = 71], while header height plus margin plus the rounded-up
    sum is 17 + 8 + 32 = 57. *)
Lemma lineYAt_2_has_text_top :
  reachable Sample.tk Sample.w2
  /\ map alpha (_lines Sample.w2) = [1%Q; 1 # 2]
  /\ lineYAt Sample.tk Sample.w2 2 = 71
  /\ described_lineYAt Sample.tk Sample.w2 2 = 57.
Proof.
  split; [exact sample_w2_reachable |].
  repeat split.
Qed.

(** ** A line at alpha 0 *)

Lemma totalHeight_lineYAt (tk : Toolkit) (w : PointDetailsWidget) :
  totalHeight tk w
  = lineYAt tk w (Z.of_nat (List.length (Data.lines (_chartData w))))
    + bottom (statisticsDetailsPopupMargins tk).
Proof. reflexivity. Qed.






(** With the second line at alpha 0 the sample popup is as high as with
    its first line alone: 14 + 17 + 8 + 21 + 8. *)
Example sample_alpha_zero_height :
  totalHeight Sample.tk (setLineAlpha Sample.tk 1 0 Sample.w2) = 68
  /\ size_height (size (setLineAlpha Sample.tk 1 0 Sample.w2)) = 68.
Proof. split; reflexivity. Qed.

(** ** More on setXIndex *)

(** The loop appends one line per series, in order, each built from the
    series and its value at the index. *)
Lemma setXIndex_loop_lines (tk : Toolkit) (textStyle : TextStyle) (i : nat)
    (dataLines : list Data.Line) :
  forall lines flag r,
  setXIndex_loop tk textStyle i dataLines lines flag = Some r ->
  exists added,
    fst r = lines ++ added
    /\ Forall2
         (fun dataLine line =>
            exists v, nth_error (Data.y dataLine) i = Some v
                      /\ line = textLineOf tk textStyle dataLine v)
         dataLines added.
Proof.
  induction dataLines as [| dataLine rest IH]; intros lines flag r; simpl.
  - intros [= <-]. exists []. simpl. rewrite app_nil_r. auto.
  - destruct (nth_error (Data.y dataLine) i) as [v |] eqn:E; [| discriminate].
    simpl. intros Hr. destruct (IH _ _ _ Hr) as (added & Hfst & Hall).
    exists (textLineOf tk textStyle dataLine v :: added). split.
    + rewrite Hfst, <- app_assoc. reflexivity.
    + constructor; [eauto | exact Hall].
Qed.

Lemma setXIndex_loop_reads (tk : Toolkit) (textStyle : TextStyle) (i : nat)
    (dataLines : list Data.Line) :
  forall lines flag r,
  setXIndex_loop tk textStyle i dataLines lines flag = Some r ->
  Forall (fun dataLine => (i < List.length (Data.y dataLine))%nat) dataLines.
Proof.
  induction dataLines as [| dataLine rest IH]; intros lines flag r; simpl.
  - constructor.
  - destruct (nth_error (Data.y dataLine) i) as [v |] eqn:E; [| discriminate].
    simpl. intros Hr. constructor; [| eapply IH; exact Hr].
    apply nth_error_Some. congruence.
Qed.

(** X1: for an index the chart can be read at, [setXIndex] leaves one line
    per chart series, in the series' order; line [n] has the id of series
    [n], its name and its value at the index set in the text style, its
    colour, and the initial alpha. *)
Theorem setXIndex_lines_from_chart (tk : Toolkit) (w : PointDetailsWidget)
    (i : Z) :
  validIndex (_chartData w) i ->
  exists w',
    setXIndex tk i w = Some w'
    /\ List.length (_lines w') = List.length (Data.lines (_chartData w))
    /\ forall n dataLine,
         nth_error (Data.lines (_chartData w)) n = Some dataLine ->
         exists v,
           nth_error (Data.y dataLine) (Z.to_nat i) = Some v
           /\ nth_error (_lines w') n
              = Some (mkLine (Data.id dataLine)
                             (Text (_textStyle w) (QStr (Data.name dataLine)))
                             (Text (_textStyle w) (ArgLInt v))
                             (QColorOf (Data.color dataLine))
                             (Line_initial_alpha tk)).
Proof.
  intros Hvalid.
  destruct (setXIndex_returns tk w i Hvalid) as [w' Hw'].
  destruct Hvalid as [[Hlo _] _].
  destruct (setXIndex_nonneg tk w i w' Hlo Hw') as (timestamp & r & _ & Hr & ->).
  eexists. split; [exact Hw' |]. simpl.
  destruct (setXIndex_loop_lines tk _ _ _ _ _ _ Hr) as (added & -> & Hall).
  simpl. split.
  - symmetry. eapply Forall2_length. exact Hall.
  - clear Hr Hw'. induction Hall as [| dataLine line rest added' Hone _ IH];
      intros n dataLine' Hn.
    + destruct n; discriminate.
    + destruct n as [| n]; simpl in *.
      * injection Hn as <-. destruct Hone as (v & Hv & ->).
        exists v. split; [exact Hv | reflexivity].
      * apply IH. exact Hn.
Qed.

Lemma setXIndex_lines_from_chart_witness :
  exists w',
    setXIndex Sample.tk 2 Sample.w0 = Some w'
    /\ List.length (_lines w') = 2%nat.
Proof.
  destruct (setXIndex_lines_from_chart Sample.tk Sample.w0 2 sample_valid_2)
    as (w' & Hw' & Hlen & _).
  exists w'. split; [exact Hw' | exact Hlen].
Defined.

(** X2: [setXIndex(i)] stays within the vectors it reads exactly when [i]
    is negative or the x axis and every series have an element at [i]. *)
Theorem setXIndex_defined_iff (tk : Toolkit) (w : PointDetailsWidget) (i : Z) :
  (exists w', setXIndex tk i w = Some w')
  <-> i < 0 \/ validIndex (_chartData w) i.
Proof.
  split.
  - intros [w' Hw'].
    destruct (Z_lt_ge_dec i 0) as [Hneg | Hpos]; [now left | right].
    destruct (setXIndex_nonneg tk w i w') as (timestamp & r & Hx & Hr & _);
      [lia | assumption |].
    split.
    + assert (Z.to_nat i < List.length (Data.x (_chartData w)))%nat
        by (apply nth_error_Some; congruence).
      lia.
    + eapply Forall_impl; [| eapply setXIndex_loop_reads; exact Hr].
      simpl. intros dataLine Hlt. lia.
  - intros [Hneg | Hvalid].
    + eexists. now apply setXIndex_negative.
    + now apply setXIndex_returns.
Qed.

Lemma setXIndex_frame (tk : Toolkit) (w : PointDetailsWidget)
    (i : Z) (w' : PointDetailsWidget) :
  setXIndex tk i w = Some w' ->
  size w' = size w
  /\ _innerRect w' = _innerRect w
  /\ _textRect w' = _textRect w
  /\ _alpha w' = _alpha w
  /\ _zoomEnabled w' = _zoomEnabled w
  /\ _chartData w' = _chartData w
  /\ _textStyle w' = _textStyle w
  /\ _headerStyle w' = _headerStyle w
  /\ _longFormat w' = _longFormat w
  /\ _shortFormat w' = _shortFormat w
  /\ calculatedWidth w' = calculatedWidth w.
Proof.
  intros Hw'. destruct (Z_lt_ge_dec i 0) as [Hneg | Hpos].
  - rewrite setXIndex_negative in Hw' by assumption.
    injection Hw' as <-. repeat split.
  - destruct (setXIndex_nonneg tk w i w') as (? & ? & _ & _ & ->);
      [lia | assumption |].
    repeat split.
Qed.

(** X3: whatever the index, a [setXIndex] that returns leaves the size, the
    two rectangles, the popup opacity and the construction-time members as
    they were; in particular it does not recompute the height. *)
Theorem setXIndex_keeps_geometry (tk : Toolkit) (w : PointDetailsWidget)
    (i : Z) (w' : PointDetailsWidget) :
  setXIndex tk i w = Some w' ->
  size w' = size w
  /\ _innerRect w' = _innerRect w
  /\ _textRect w' = _textRect w
  /\ _alpha w' = _alpha w
  /\ _zoomEnabled w' = _zoomEnabled w
  /\ _chartData w' = _chartData w
  /\ _textStyle w' = _textStyle w
  /\ _headerStyle w' = _headerStyle w
  /\ _longFormat w' = _longFormat w
  /\ _shortFormat w' = _shortFormat w
  /\ calculatedWidth w' = calculatedWidth w.
Proof. exact (setXIndex_frame tk w i w'). Qed.

Lemma setXIndex_keeps_geometry_witness :
  exists w',
    setXIndex Sample.tk 1 (setLineAlpha Sample.tk 1 0 Sample.w1) = Some w'
    /\ size w' = size (setLineAlpha Sample.tk 1 0 Sample.w1).
Proof.
  eexists. split; [reflexivity |].
  apply (setXIndex_keeps_geometry Sample.tk
           (setLineAlpha Sample.tk 1 0 Sample.w1) 1).
  reflexivity.
Defined.

(** X4: alphas set before do not survive a rebuild: for a non-negative
    index, header, lines and mouse transparency after [setLineAlpha(id, a)]
    followed by [setXIndex(i)] are those after [setXIndex(i)] alone. *)
Theorem setXIndex_after_setLineAlpha (tk : Toolkit) (w : PointDetailsWidget)
    (lineId : Z) (a : Q) (i : Z) :
  0 <= i ->
  option_map _lines (setXIndex tk i (setLineAlpha tk lineId a w))
  = option_map _lines (setXIndex tk i w)
  /\ option_map _header (setXIndex tk i (setLineAlpha tk lineId a w))
     = option_map _header (setXIndex tk i w)
  /\ option_map WA_TransparentForMouseEvents
       (setXIndex tk i (setLineAlpha tk lineId a w))
     = option_map WA_TransparentForMouseEvents (setXIndex tk i w).
Proof.
  intros Hi. unfold setXIndex.
  destruct (i <? 0) eqn:E; [apply Z.ltb_lt in E; lia |].
  cbn [with_xIndex setLineAlpha resizeHeight resize onSize withLines
       _chartData _textStyle _headerStyle _longFormat _shortFormat
       _zoomEnabled].
  destruct (nth_error (Data.x (_chartData w)) (Z.to_nat i)) as [timestamp |];
    [| repeat split].
  cbn [bind].
  destruct (setXIndex_loop tk (_textStyle w) (Z.to_nat i)
              (Data.lines (_chartData w)) [] false) as [r |];
    repeat split.
Qed.

Lemma setXIndex_after_setLineAlpha_witness :
  option_map _lines (setXIndex Sample.tk 0 (setLineAlpha Sample.tk 1 0 Sample.w1))
  = option_map _lines (setXIndex Sample.tk 0 Sample.w1).
Proof.
  apply (setXIndex_after_setLineAlpha Sample.tk Sample.w1 1 0 0). lia.
Defined.

(** ** More on the layout *)

Lemma linesHeight_succ (tk : Toolkit) (w : PointDetailsWidget) (k : nat) :
  linesHeight tk w (Z.of_nat (S k))
  = (linesHeight tk w (Z.of_nat k)
     + alphaAt (_lines w) k * inject_Z (lineUnit tk w))%Q.
Proof.
  unfold linesHeight. rewrite !Nat2Z.id, seq_S, fold_left_app. reflexivity.
Qed.

Lemma alphaAt_in_unit (lines : list Line) (k : nat) :
  alphasInUnit lines -> (0 <= alphaAt lines k <= 1)%Q.
Proof.
  intros Hall. rewrite alphaAt_slotAlpha. unfold slotAlpha.
  destruct (nth_error lines k) as [line |] eqn:E.
  - apply Hall. eapply nth_error_In. exact E.
  - split; discriminate.
Qed.

(** Adding a part [a * u] of an integer [u], [0 <= a <= 1], moves the
    rounded-up value by at least 0 and at most [u]. *)
Lemma Qceiling_step (s a : Q) (u : Z) :
  (0 <= a <= 1)%Q -> 0 <= u ->
  Qceiling s <= Qceiling (s + a * inject_Z u) <= Qceiling s + u.
Proof.
  intros [Ha0 Ha1] Hu.
  assert (Hu' : (0 <= inject_Z u)%Q)
    by (change 0%Q with (inject_Z 0); rewrite <- Zle_Qle; exact Hu).
  split.
  - apply Qceiling_resp_le.
    rewrite <- (Qplus_0_r s) at 1. apply Qplus_le_r.
    now apply Qmult_le_0_compat.
  - rewrite <- (Qceiling_Z (Qceiling s + u)). apply Qceiling_resp_le.
    rewrite inject_Z_plus. apply Qplus_le_compat; [apply Qle_ceiling |].
    rewrite <- (Qmult_1_l (inject_Z u)) at 2.
    now apply Qmult_le_compat_r.
Qed.

Lemma lineYAt_step (tk : Toolkit) (w : PointDetailsWidget) (k : nat) :
  alphasInUnit (_lines w) -> 0 <= lineUnit tk w ->
  lineYAt tk w (Z.of_nat k) <= lineYAt tk w (Z.of_nat (S k))
  <= lineYAt tk w (Z.of_nat k) + lineUnit tk w.
Proof.
  intros Hall Hu. unfold lineYAt. rewrite linesHeight_succ.
  pose proof (Qceiling_step (linesHeight tk w (Z.of_nat k))
                (alphaAt (_lines w) k) (lineUnit tk w)
                (alphaAt_in_unit _ k Hall) Hu).
  lia.
Qed.

Lemma lineYAt_steps_nat (tk : Toolkit) (w : PointDetailsWidget) (j d : nat) :
  alphasInUnit (_lines w) -> 0 <= lineUnit tk w ->
  lineYAt tk w (Z.of_nat j) <= lineYAt tk w (Z.of_nat (j + d))
  <= lineYAt tk w (Z.of_nat j) + Z.of_nat d * lineUnit tk w.
Proof.
  intros Hall Hu. induction d as [| d IH].
  - rewrite Nat.add_0_r. lia.
  - rewrite Nat.add_succ_r.
    pose proof (lineYAt_step tk w (j + d) Hall Hu). lia.
Qed.

(** X5: when every recorded alpha lies in [0, 1] and the line unit (text
    font height plus spacing) is not negative, [lineYAt] does not decrease
    with the index, and from slot [j] to slot [k] it grows by at most
    [(k - j)] line units. *)
Theorem lineYAt_monotone (tk : Toolkit) (w : PointDetailsWidget) (j k : Z) :
  alphasInUnit (_lines w) ->
  0 <= lineUnit tk w ->
  0 <= j <= k ->
  lineYAt tk w j <= lineYAt tk w k
  <= lineYAt tk w j + (k - j) * lineUnit tk w.
Proof.
  intros Hall Hu [Hj Hjk].
  pose proof (lineYAt_steps_nat tk w (Z.to_nat j) (Z.to_nat (k - j)) Hall Hu)
    as H.
  rewrite Nat2Z.inj_add, !Z2Nat.id in H by lia.
  replace (j + (k - j)) with k in H by lia. exact H.
Qed.

Lemma sample_w2_alphas : alphasInUnit (_lines Sample.w2).
Proof.
  intros line [<- | [<- | []]]; split; discriminate.
Defined.

Lemma lineYAt_monotone_witness :
  lineYAt Sample.tk Sample.w2 1 <= lineYAt Sample.tk Sample.w2 2
  <= lineYAt Sample.tk Sample.w2 1 + (2 - 1) * lineUnit Sample.tk Sample.w2.
Proof.
  apply (lineYAt_monotone Sample.tk Sample.w2 1 2 sample_w2_alphas).
  - discriminate.
  - split; discriminate.
Defined.

(** Slots whose alpha is 1 each add one whole line unit. *)
Lemma layoutSum_full (lines : list Line) (unit : Z) (k : nat) :
  (forall n line,
     (n < k)%nat -> nth_error lines n = Some line -> (alpha line == 1)%Q) ->
  (layoutSum lines unit k == inject_Z (Z.of_nat k * unit))%Q.
Proof.
  unfold layoutSum. induction k as [| k IH]; intros Hone.
  - simpl. reflexivity.
  - assert (IH' := IH (fun n line Hn => Hone n line (Nat.lt_lt_succ_r _ _ Hn))).
    rewrite seq_S, map_app, Qsum_app, IH'. cbn [map Qsum Nat.add].
    assert (Hk : (slotAlpha lines k == 1)%Q).
    { unfold slotAlpha. destruct (nth_error lines k) as [line |] eqn:E;
        [eapply Hone; eauto | reflexivity]. }
    rewrite Hk, Nat2Z.inj_succ, <- Z.add_1_r, Z.mul_add_distr_r, Z.mul_1_l.
    rewrite inject_Z_plus. ring.
Qed.

Lemma lineYAt_all_one (tk : Toolkit) (w : PointDetailsWidget) (k : Z) :
  0 <= k ->
  (forall n line,
     Z.of_nat n < k -> nth_error (_lines w) n = Some line ->
     (alpha line == 1)%Q) ->
  lineYAt tk w k
  = rect_y (_textRect w)
    + height (font (_headerStyle w))
    + bottom (statisticsDetailsPopupMargins tk)
    + k * lineUnit tk w.
Proof.
  intros Hk Hone. unfold lineYAt.
  assert (Hone' : forall n line,
             (n < Z.to_nat k)%nat -> nth_error (_lines w) n = Some line ->
             (alpha line == 1)%Q)
    by (intros n line Hn; apply Hone; lia).
  rewrite (Qceiling_comp _ _ (linesHeight_layoutSum tk w k)).
  rewrite (Qceiling_comp _ _
             (layoutSum_full (_lines w) (lineUnit tk w) (Z.to_nat k) Hone')).
  rewrite Qceiling_Z, Z2Nat.id by exact Hk. reflexivity.
Qed.

(** X6: when every recorded line below slot [k] has alpha 1 (as when no
    line is recorded at all), [lineYAt(k)] is the top of the text rectangle
    plus header height plus bottom margin plus [k] whole line units. *)
Theorem lineYAt_full_lines (tk : Toolkit) (w : PointDetailsWidget) (k : Z) :
  0 <= k ->
  (forall n line,
     Z.of_nat n < k -> nth_error (_lines w) n = Some line ->
     (alpha line == 1)%Q) ->
  lineYAt tk w k
  = rect_y (_textRect w)
    + height (font (_headerStyle w))
    + bottom (statisticsDetailsPopupMargins tk)
    + k * lineUnit tk w.
Proof. exact (lineYAt_all_one tk w k). Qed.

Lemma lineYAt_full_lines_witness :
  lineYAt Sample.tk Sample.w1 2 = 14 + 17 + 8 + 2 * 21.
Proof.
  apply (lineYAt_full_lines Sample.tk Sample.w1 2).
  - discriminate.
  - intros [| [| n]] line Hn Hline; simpl in Hline.
    + injection Hline as <-. reflexivity.
    + injection Hline as <-. reflexivity.
    + destruct n; discriminate Hline.
Defined.

(** ** Resizing and repeated setLineAlpha *)

(** Of two [resize] calls in a row the later decides. *)
Lemma resize_resize (tk : Toolkit) (w : PointDetailsWidget)
    (width1 height1 width2 height2 : Z) :
  resize tk width2 height2 (resize tk width1 height1 w)
  = resize tk width2 height2 w.
Proof. reflexivity. Qed.

Lemma withLines_resize (tk : Toolkit) (w : PointDetailsWidget)
    (lines : list Line) (width' height' : Z) :
  withLines lines (resize tk width' height' w)
  = resize tk width' height' (withLines lines w).
Proof. reflexivity. Qed.

(** [lineYAt] reads the top of the text rectangle, the two styles and the
    lines, nothing else. *)
Lemma lineYAt_ext (tk : Toolkit) (w1 w2 : PointDetailsWidget) (k : Z) :
  rect_y (_textRect w1) = rect_y (_textRect w2) ->
  _headerStyle w1 = _headerStyle w2 ->
  _textStyle w1 = _textStyle w2 ->
  _lines w1 = _lines w2 ->
  lineYAt tk w1 k = lineYAt tk w2 k.
Proof.
  unfold lineYAt, linesHeight, lineUnit. intros -> -> -> ->. reflexivity.
Qed.

Lemma reachable_textTopSettled (tk : Toolkit) (w : PointDetailsWidget) :
  reachable tk w -> textTopSettled tk w.
Proof. intros H. exact (proj1 (reachable_invariant tk w H)). Qed.

Lemma resizeHeight_settled (tk : Toolkit) (w : PointDetailsWidget) :
  textTopSettled tk w ->
  resizeHeight tk (resizeHeight tk w) = resizeHeight tk w.
Proof.
  intros Hy. unfold resizeHeight at 1.
  assert (Hline : forall k,
             lineYAt tk (resizeHeight tk w) k = lineYAt tk w k).
  { intros k. apply lineYAt_ext; try reflexivity.
    unfold resizeHeight, resize. rewrite onSize_textRect_y. symmetry. exact Hy. }
  rewrite Hline.
  change (width (resizeHeight tk w)) with (width w).
  change (_chartData (resizeHeight tk w)) with (_chartData w).
  unfold resizeHeight. apply resize_resize.
Qed.

(** Two [setLineAlpha] calls in a row come to one pass of each loop over
    the lines and one [resizeHeight]. *)
Lemma setLineAlpha_twice (tk : Toolkit) (w : PointDetailsWidget)
    (id1 id2 : Z) (a1 a2 : Q) :
  textTopSettled tk w ->
  setLineAlpha tk id2 a2 (setLineAlpha tk id1 a1 w)
  = resizeHeight tk
      (withLines (setLineAlpha_loop id2 a2 (setLineAlpha_loop id1 a1 (_lines w)))
                 w).
Proof.
  intros Hy. unfold setLineAlpha at 1. rewrite setLineAlpha_lines.
  set (lines2 := setLineAlpha_loop id2 a2 (setLineAlpha_loop id1 a1 (_lines w))).
  unfold resizeHeight at 1.
  assert (Hline : forall k,
             lineYAt tk (withLines lines2 (setLineAlpha tk id1 a1 w)) k
             = lineYAt tk (withLines lines2 w) k).
  { intros k. apply lineYAt_ext; try reflexivity.
    unfold setLineAlpha, resizeHeight, resize, withLines at 1.
    cbn [_textRect]. rewrite onSize_textRect_y. symmetry. exact Hy. }
  rewrite Hline. reflexivity.
Qed.

Lemma setLineAlpha_loop_same_id (lineId : Z) (a b : Q) (lines : list Line) :
  setLineAlpha_loop lineId a (setLineAlpha_loop lineId b lines)
  = setLineAlpha_loop lineId a lines.
Proof.
  induction lines as [| line rest IH]; simpl; [reflexivity |].
  rewrite IH. f_equal.
  destruct (id line =? lineId) eqn:E; simpl; rewrite E; reflexivity.
Qed.

Lemma setLineAlpha_loop_other_id (id1 id2 : Z) (a b : Q) (lines : list Line) :
  id1 <> id2 ->
  setLineAlpha_loop id1 a (setLineAlpha_loop id2 b lines)
  = setLineAlpha_loop id2 b (setLineAlpha_loop id1 a lines).
Proof.
  intros Hne. induction lines as [| line rest IH]; simpl; [reflexivity |].
  rewrite IH. f_equal.
  destruct (id line =? id1) eqn:E1, (id line =? id2) eqn:E2; simpl;
    rewrite ?E1, ?E2; try reflexivity.
  apply Z.eqb_eq in E1, E2. congruence.
Qed.

(** X7: in every state the widget can be in, [setLineAlpha] leaves the
    height in step with the lines: a further [resizeHeight] changes
    nothing, and the height is the total height of the lines. *)
Theorem setLineAlpha_height_settled (tk : Toolkit) (w : PointDetailsWidget)
    (lineId : Z) (a : Q) :
  reachable tk w ->
  resizeHeight tk (setLineAlpha tk lineId a w) = setLineAlpha tk lineId a w
  /\ size_height (size (setLineAlpha tk lineId a w))
     = totalHeight tk (setLineAlpha tk lineId a w).
Proof.
  intros Hreach.
  assert (H : resizeHeight tk (setLineAlpha tk lineId a w)
              = setLineAlpha tk lineId a w).
  { unfold setLineAlpha. apply resizeHeight_settled.
    exact (reachable_textTopSettled tk w Hreach). }
  split; [exact H |]. unfold totalHeight. now rewrite H.
Qed.

Lemma setLineAlpha_height_settled_witness :
  size_height (size (setLineAlpha Sample.tk 0 (1 # 3) Sample.w2))
  = totalHeight Sample.tk (setLineAlpha Sample.tk 0 (1 # 3) Sample.w2).
Proof.
  apply (setLineAlpha_height_settled Sample.tk Sample.w2 0 (1 # 3)
           sample_w2_reachable).
Defined.

(** X8: in every state the widget can be in, a second [setLineAlpha] for
    the same id overrides the first: the state is the one the second call
    alone gives. *)
Theorem setLineAlpha_same_id (tk : Toolkit) (w : PointDetailsWidget)
    (lineId : Z) (a b : Q) :
  reachable tk w ->
  setLineAlpha tk lineId a (setLineAlpha tk lineId b w)
  = setLineAlpha tk lineId a w.
Proof.
  intros Hreach.
  rewrite setLineAlpha_twice by exact (reachable_textTopSettled tk w Hreach).
  rewrite setLineAlpha_loop_same_id. reflexivity.
Qed.

Lemma setLineAlpha_same_id_witness :
  setLineAlpha Sample.tk 1 (1 # 4) (setLineAlpha Sample.tk 1 0 Sample.w1)
  = setLineAlpha Sample.tk 1 (1 # 4) Sample.w1.
Proof.
  exact (setLineAlpha_same_id Sample.tk Sample.w1 1 (1 # 4) 0
           sample_w1_reachable).
Defined.

(** X9: in every state the widget can be in, [setLineAlpha] calls for two
    different ids can be made in either order, with the same state after. *)
Theorem setLineAlpha_commute (tk : Toolkit) (w : PointDetailsWidget)
    (id1 id2 : Z) (a b : Q) :
  reachable tk w ->
  id1 <> id2 ->
  setLineAlpha tk id1 a (setLineAlpha tk id2 b w)
  = setLineAlpha tk id2 b (setLineAlpha tk id1 a w).
Proof.
  intros Hreach Hne.
  rewrite !setLineAlpha_twice by exact (reachable_textTopSettled tk w Hreach).
  rewrite (setLineAlpha_loop_other_id id1 id2 a b) by exact Hne. reflexivity.
Qed.

Lemma setLineAlpha_commute_witness :
  setLineAlpha Sample.tk 0 (1 # 4) (setLineAlpha Sample.tk 1 0 Sample.w1)
  = setLineAlpha Sample.tk 1 0 (setLineAlpha Sample.tk 0 (1 # 4) Sample.w1).
Proof.
  apply (setLineAlpha_commute Sample.tk Sample.w1 0 1 (1 # 4) 0
           sample_w1_reachable).
  discriminate.
Defined.

(** ** The constructor *)

(** What the constructor computes, with [front] the first x value. *)
Lemma construct_some (tk : Toolkit) (chartData : Data.StatisticalChart)
    (maxAbsoluteValue : Q) (zoomEnabled : bool) (w : PointDetailsWidget) :
  construct tk chartData maxAbsoluteValue zoomEnabled = Some w ->
  exists front,
    hd_error (Data.x chartData) = Some front
    /\ _zoomEnabled w = zoomEnabled
    /\ _chartData w = chartData
    /\ _textStyle w = statisticsDetailsPopupStyle tk
    /\ _headerStyle w = semiboldTextStyle tk
    /\ _lines w = []
    /\ _header w = NoText
    /\ _xIndex w = initial_xIndex tk
    /\ _alpha w = initial_alpha tk
    /\ WA_TransparentForMouseEvents w = initial_WA_TransparentForMouseEvents tk
    /\ textTopSettled tk w
    /\ size_width (size w) = calculatedWidth w
    /\ size_height (size w) = totalHeight tk w
    /\ rect_width (_textRect (onSize tk (size w) w))
       = calculatedWidth w
         - m_sum_h (statisticsDetailsPopupPadding tk)
         - m_sum_h (statisticsDetailsPopupMargins tk)
    /\ calculatedWidth w
       = maxWidth tk (statisticsDetailsPopupStyle tk)
                  (ArgLDouble maxAbsoluteValue)
         + m_sum_h (statisticsDetailsPopupMargins tk)
         + m_sum_h (statisticsDetailsPopupPadding tk)
         + left (statisticsDetailsPopupPadding tk)
         + Z.max
             (maxWidth tk (semiboldTextStyle tk)
                (FormatTimestamp front "ddd, MMM d hh:mm" "ddd, MMM d")
              + left (statisticsDetailsPopupPadding tk))
             (fold_left
                (fun acc dataLine =>
                   Z.max (maxWidth tk (statisticsDetailsPopupStyle tk)
                            (QStr (Data.name dataLine)))
                         acc)
                (Data.lines chartData) 0).
Proof.
  unfold construct.
  destruct (hd_error (Data.x chartData)) as [front |]; [| discriminate].
  cbn [bind]. cbv zeta.
  match goal with
  | |- Some (resizeHeight tk (resize tk ?cw ?h ?w1)) = Some w -> _ =>
      set (w2 := resize tk cw h w1);
      assert (Hcw2 : calculatedWidth w2 = cw) by reflexivity;
      assert (Hwidth2 : width w2 = cw) by reflexivity;
      assert (Hfields : _zoomEnabled w2 = zoomEnabled
                        /\ _chartData w2 = chartData
                        /\ _textStyle w2 = statisticsDetailsPopupStyle tk
                        /\ _headerStyle w2 = semiboldTextStyle tk
                        /\ _lines w2 = []
                        /\ _header w2 = NoText
                        /\ _xIndex w2 = initial_xIndex tk
                        /\ _alpha w2 = initial_alpha tk
                        /\ WA_TransparentForMouseEvents w2
                           = initial_WA_TransparentForMouseEvents tk)
        by (repeat split);
      assert (Hs : textTopSettled tk w2) by apply onSize_textRect_y
  end.
  clearbody w2. intros [= <-]. exists front.
  split; [reflexivity |].
  change (_zoomEnabled (resizeHeight tk w2)) with (_zoomEnabled w2).
  change (_chartData (resizeHeight tk w2)) with (_chartData w2).
  change (_textStyle (resizeHeight tk w2)) with (_textStyle w2).
  change (_headerStyle (resizeHeight tk w2)) with (_headerStyle w2).
  change (_lines (resizeHeight tk w2)) with (_lines w2).
  change (_header (resizeHeight tk w2)) with (_header w2).
  change (_xIndex (resizeHeight tk w2)) with (_xIndex w2).
  change (_alpha (resizeHeight tk w2)) with (_alpha w2).
  change (WA_TransparentForMouseEvents (resizeHeight tk w2))
    with (WA_TransparentForMouseEvents w2).
  change (calculatedWidth (resizeHeight tk w2)) with (calculatedWidth w2).
  change (size_width (size (resizeHeight tk w2))) with (width w2).
  destruct Hfields as (H1 & H2 & H3 & H4 & H5 & H6 & H7 & H8 & H9).
  repeat (split; [assumption |]).
  split; [apply onSize_textRect_y |].
  split; [now rewrite Hwidth2, Hcw2 |].
  split; [unfold totalHeight; now rewrite (resizeHeight_settled tk w2 Hs) |].
  split; [| exact Hcw2].
  rewrite onSize_textRect_width.
  change (calculatedWidth (resizeHeight tk w2)) with (calculatedWidth w2).
  change (size_width (size (resizeHeight tk w2))) with (width w2).
  rewrite Hwidth2, Hcw2.
  match goal with |- context [isNull ?s] => destruct (isNull s) end;
    reflexivity.
Qed.

Lemma fold_max_ge {A : Type} (f : A -> Z) (l : list A) :
  forall a,
  a <= fold_left (fun acc d => Z.max (f d) acc) l a
  /\ forall d, In d l -> f d <= fold_left (fun acc d => Z.max (f d) acc) l a.
Proof.
  induction l as [| e l IH]; intros a; simpl.
  - split; [lia | intros d []].
  - destruct (IH (Z.max (f e) a)) as [Hge Hin]. split; [lia |].
    intros d [<- | Hd]; [lia | now apply Hin].
Qed.

(** X10: the constructor needs a first x value and fails without one.
    With one it returns a popup without header text and without lines, as
    wide as the computed width, and as high as a header and one full text
    line per chart series take: top padding, top margin, header font
    height, bottom margin, one line unit per series, bottom margin. *)
Theorem construct_initial_state (tk : Toolkit)
    (chartData : Data.StatisticalChart) (maxAbsoluteValue : Q)
    (zoomEnabled : bool) :
  (Data.x chartData = [] ->
   construct tk chartData maxAbsoluteValue zoomEnabled = None)
  /\ (Data.x chartData <> [] ->
      exists w,
        construct tk chartData maxAbsoluteValue zoomEnabled = Some w
        /\ _header w = NoText
        /\ _lines w = []
        /\ _xIndex w = initial_xIndex tk
        /\ size_width (size w) = calculatedWidth w
        /\ size_height (size w)
           = top (statisticsDetailsPopupPadding tk)
             + top (statisticsDetailsPopupMargins tk)
             + height (font (semiboldTextStyle tk))
             + bottom (statisticsDetailsPopupMargins tk)
             + Z.of_nat (List.length (Data.lines chartData))
               * (height (font (statisticsDetailsPopupStyle tk))
                  + statisticsDetailsPopupMidLineSpace tk)
             + bottom (statisticsDetailsPopupMargins tk)).
Proof.
  split.
  - intros Hx. unfold construct. rewrite Hx. reflexivity.
  - intros Hx.
    destruct (construct tk chartData maxAbsoluteValue zoomEnabled)
      as [w |] eqn:Hc.
    + destruct (construct_some tk _ _ _ _ Hc)
        as (front & _ & _ & Hchart & Hts & Hhs & Hl & Hh & Hxi & _ & _
            & Hy & Hw & Hheight & _).
      exists w. repeat (split; [assumption || reflexivity |]).
      rewrite Hheight, totalHeight_lineYAt, lineYAt_all_one.
      * unfold lineUnit. rewrite Hy, Hhs, Hts, Hchart. reflexivity.
      * lia.
      * intros n line _. rewrite Hl. destruct n; discriminate.
    + unfold construct in Hc. destruct (Data.x chartData); [congruence |].
      discriminate Hc.
Qed.

Lemma construct_initial_state_witness :
  exists w,
    construct Sample.tk Sample.chart 7 true = Some w
    /\ size w = mkSize (calculatedWidth w) (6 + 8 + 17 + 8 + 2 * (17 + 4) + 8).
Proof.
  destruct (construct_initial_state Sample.tk Sample.chart 7 true)
    as [_ Hsome].
  destruct Hsome as (w & Hc & _ & _ & _ & Hw & Hh); [discriminate |].
  exists w. split; [exact Hc |].
  destruct (size w) as [sw sh]. simpl in Hw, Hh. now rewrite Hw, Hh.
Defined.

(** X11: the popup the constructor returns is wide enough.  For its size
    the size subscriber computes a text rectangle whose width is the widget
    width less the horizontal padding and margins, and that has room for
    the widest value, the gap of one left padding, and beside them any
    series name or the header text of the first x value (with one more left
    padding).  The statement applies the subscriber to the popup's size and
    so does not depend on when the toolkit delivers the size. *)
Theorem construct_width_fits_delivered (tk : Toolkit)
    (chartData : Data.StatisticalChart) (maxAbsoluteValue : Q)
    (zoomEnabled : bool) (w : PointDetailsWidget) :
  construct tk chartData maxAbsoluteValue zoomEnabled = Some w ->
  let valueWidth :=
    maxWidth tk (statisticsDetailsPopupStyle tk)
             (ArgLDouble maxAbsoluteValue) in
  let gap := left (statisticsDetailsPopupPadding tk) in
  let textWidth := rect_width (_textRect (onSize tk (size w) w)) in
  textWidth
  = width w
    - m_sum_h (statisticsDetailsPopupPadding tk)
    - m_sum_h (statisticsDetailsPopupMargins tk)
  /\ (forall dataLine,
        In dataLine (Data.lines chartData) ->
        valueWidth + gap
        + maxWidth tk (statisticsDetailsPopupStyle tk)
                   (QStr (Data.name dataLine))
        <= textWidth)
  /\ (forall front,
        hd_error (Data.x chartData) = Some front ->
        valueWidth + gap
        + (maxWidth tk (semiboldTextStyle tk)
             (FormatTimestamp front "ddd, MMM d hh:mm" "ddd, MMM d")
           + left (statisticsDetailsPopupPadding tk))
        <= textWidth)
  /\ valueWidth + gap <= textWidth.
Proof.
  intros Hc valueWidth gap textWidth.
  destruct (construct_some tk _ _ _ _ Hc)
    as (front & Hfront & _ & _ & _ & _ & _ & _ & _ & _ & _ & _
        & Hw & _ & Hrect & Hcw).
  fold textWidth in Hrect.
  set (names := fold_left _ (Data.lines chartData) 0) in Hcw.
  destruct (fold_max_ge
              (fun dataLine =>
                 maxWidth tk (statisticsDetailsPopupStyle tk)
                          (QStr (Data.name dataLine)))
              (Data.lines chartData) 0) as [H0 Hin].
  fold names in H0, Hin.
  assert (Hrw : textWidth
                = valueWidth + gap
                  + Z.max
                      (maxWidth tk (semiboldTextStyle tk)
                         (FormatTimestamp front "ddd, MMM d hh:mm" "ddd, MMM d")
                       + left (statisticsDetailsPopupPadding tk))
                      names).
  { rewrite Hrect, Hcw. unfold valueWidth, gap. lia. }
  split; [unfold width; rewrite Hrect, Hw; reflexivity |].
  split; [| split].
  - intros dataLine Hd. specialize (Hin dataLine Hd). lia.
  - intros front' Hfront'. rewrite Hfront in Hfront'.
    injection Hfront' as <-. lia.
  - lia.
Qed.

Lemma construct_width_fits_delivered_witness :
  rect_width (_textRect (onSize Sample.tk (size Sample.w0) Sample.w0))
  = width Sample.w0 - 12 - 16
  /\ 42 + 6 + 7 * 6
     <= rect_width (_textRect (onSize Sample.tk (size Sample.w0) Sample.w0)).
Proof.
  destruct (construct_width_fits_delivered Sample.tk Sample.chart 7 true
              Sample.w0 eq_refl) as (Hw & Hnames & _ & _).
  split; [exact Hw |].
  apply (Hnames (Data.mkLine [5; 0; 7] 0 "Joined" "#4bd964")).
  left. reflexivity.
Defined.

(** ** Rectangles and size *)





(** ** Painting *)

Lemma paintLines_length (tk : Toolkit) (emptyMaxWidth : Z)
    (w : PointDetailsWidget) (rest : list Line) :
  forall i,
  List.length (paintLines tk emptyMaxWidth w i rest)
  = (5 * List.length rest)%nat.
Proof.
  induction rest as [| line rest IH]; intros i; simpl; [reflexivity |].
  rewrite IH. lia.
Qed.

(** The calls for the line at offset [n] of [rest] start after [5 * n]
    calls and are those of one round of the loop at index [i + n]. *)
Lemma paintLines_nth (tk : Toolkit) (emptyMaxWidth : Z)
    (w : PointDetailsWidget) (rest : list Line) :
  forall i n line,
  nth_error rest n = Some line ->
  firstn 5 (skipn (5 * n) (paintLines tk emptyMaxWidth w i rest))
  = paintLine tk emptyMaxWidth w (i + n) line.
Proof.
  induction rest as [| first rest IH]; intros i n line Hn.
  - destruct n; discriminate.
  - destruct n as [| n].
    + injection Hn as <-. rewrite Nat.add_0_r. reflexivity.
    + replace (5 * S n)%nat with (5 + 5 * n)%nat by lia.
      cbn [paintLines]. unfold paintLine at 1.
      cbn [app skipn Nat.add].
      rewrite (IH (S i) n line Hn). f_equal. lia.
Qed.

(** X13: [paintEvent] makes five calls for the frame and header and five
    per recorded line.  For the line in slot [n] they are: opacity set to
    the square of the line's alpha; the name drawn at the left edge of the
    text rectangle and the value drawn so that it ends at its right edge,
    both at height [lineYAt(n)]; the pen being the box text colour for the
    name and the line's colour for the value. *)
Theorem paintEvent_line (tk : Toolkit) (emptyMaxWidth : Z)
    (w : PointDetailsWidget) (n : nat) (line : Line) :
  nth_error (_lines w) n = Some line ->
  let valueWidth := textMaxWidth tk emptyMaxWidth (value line) in
  let lineY := lineYAt tk w (Z.of_nat n) in
  List.length (paintEvent tk emptyMaxWidth w)
  = (5 + 5 * List.length (_lines w))%nat
  /\ firstn 5 (skipn (5 + 5 * n) (paintEvent tk emptyMaxWidth w))
     = [SetOpacity (alpha line * alpha line)%Q;
        SetPen BoxTextFg;
        Draw (name line)
             (mkPaintContext (mkPoint (rect_x (_textRect w)) lineY)
                (Some (rect_width (_textRect w) - valueWidth))
                (Some (rect_width (_textRect w))));
        SetPen (PenColor (valueColor line));
        Draw (value line)
             (mkPaintContext
                (mkPoint (rect_x (_textRect w) + rect_width (_textRect w)
                          - valueWidth)
                         lineY)
                None None)].
Proof.
  intros Hn valueWidth lineY. unfold paintEvent. split.
  - rewrite length_app, paintLines_length. reflexivity.
  - cbn [app skipn Nat.add].
    rewrite (paintLines_nth tk emptyMaxWidth w (_lines w) 0 n line Hn).
    reflexivity.
Qed.

Lemma paintEvent_line_witness :
  firstn 1 (skipn (5 + 5 * 1) (paintEvent Sample.tk 0 Sample.w2))
  = [SetOpacity ((1 # 2) * (1 # 2))%Q].
Proof.
  pose proof (paintEvent_line Sample.tk 0 Sample.w2 1
                (mkLine 1 (Text (mkTextStyle (mkFont 17)) (QStr "Left"))
                          (Text (mkTextStyle (mkFont 17)) (ArgLInt 0))
                          (QColorOf "#fe3c30") (1 # 2))
                eq_refl) as [_ H].
  apply (f_equal (firstn 1)) in H. exact H.
Defined.

(** X14: the popup opacity reaches the painter only in the first call:
    after [setAlpha(a)] the calls are [setOpacity(a)] followed by the same
    calls as before, so each line is still drawn at the square of its own
    alpha. *)
Theorem paintEvent_setAlpha (tk : Toolkit) (emptyMaxWidth : Z)
    (w : PointDetailsWidget) (a : Q) :
  paintEvent tk emptyMaxWidth (setAlpha a w)
  = SetOpacity a :: tl (paintEvent tk emptyMaxWidth w).
Proof.
  unfold paintEvent. cbn [app tl]. do 5 f_equal.
  change (_lines (setAlpha a w)) with (_lines w).
  generalize 0%nat. induction (_lines w) as [| line rest IH]; intros i.
  - reflexivity.
  - cbn [paintLines]. rewrite IH. reflexivity.
Qed.

(** ** setAlpha *)

(** X15: [setAlpha] keeps to the popup opacity: the later of two calls
    decides, it can be swapped with [setLineAlpha] and with [setXIndex]
    without changing the state reached, and it moves no line. *)
Theorem setAlpha_independent (tk : Toolkit) (w : PointDetailsWidget)
    (a b : Q) (lineId i k : Z) :
  setAlpha a (setAlpha b w) = setAlpha a w
  /\ setAlpha a (setLineAlpha tk lineId b w)
     = setLineAlpha tk lineId b (setAlpha a w)
  /\ option_map (setAlpha a) (setXIndex tk i w) = setXIndex tk i (setAlpha a w)
  /\ lineYAt tk (setAlpha a w) k = lineYAt tk w k.
Proof.
  split; [reflexivity |]. split; [reflexivity |]. split; [| reflexivity].
  unfold setXIndex. destruct (i <? 0); [reflexivity |].
  cbn [with_xIndex setAlpha _chartData _textStyle _headerStyle _longFormat
       _shortFormat _zoomEnabled].
  destruct (nth_error (Data.x (_chartData w)) (Z.to_nat i)) as [timestamp |];
    [| reflexivity].
  cbn [bind].
  destruct (setXIndex_loop tk (_textStyle w) (Z.to_nat i)
              (Data.lines (_chartData w)) [] false) as [r |]; reflexivity.
Qed.

(** ** FormatTimestamp in milliseconds *)

Lemma secondOfDay_of_milliseconds (timestamp : Z) :
  0 <= timestamp ->
  fromSecsSinceEpoch timestamp = timestamp / 1000
  /\ (60 <= utcSecondOfDay (fromSecsSinceEpoch timestamp)
      <-> 60000 <= timestamp mod 86400000).
Proof.
  intros Hts. unfold fromSecsSinceEpoch, utcSecondOfDay.
  rewrite Z.quot_div_nonneg by lia.
  split; [reflexivity |].
  Z.div_mod_to_equations. lia.
Qed.

(** X16: for a timestamp at or after the epoch, the header is the long
    rendering when the millisecond offset into its UTC day is at least
    60000 (one minute) and the short rendering when it is less; both are
    renderings of the whole second [timestamp / 1000]. *)
Theorem FormatTimestamp_by_milliseconds (timestamp : Z)
    (longFormat shortFormat : string) :
  0 <= timestamp ->
  (60000 <= timestamp mod 86400000 ->
   FormatTimestamp timestamp longFormat shortFormat
   = LocaleDateTime (timestamp / 1000) longFormat)
  /\ (timestamp mod 86400000 < 60000 ->
      FormatTimestamp timestamp longFormat shortFormat
      = LocaleDate (timestamp / 1000) shortFormat).
Proof.
  intros Hts.
  destruct (secondOfDay_of_milliseconds timestamp Hts) as [Hsecs Hiff].
  rewrite <- Hsecs. split; intros Hms.
  - apply FormatTimestamp_long_iff, hour_or_minute_iff, Hiff. exact Hms.
  - apply FormatTimestamp_short_iff.
    assert (Hnot : ~ (utcHour (fromSecsSinceEpoch timestamp) <> 0
                      \/ utcMinute (fromSecsSinceEpoch timestamp) <> 0)).
    { rewrite hour_or_minute_iff, Hiff. lia. }
    split.
    + destruct (Z.eq_dec (utcHour (fromSecsSinceEpoch timestamp)) 0); tauto.
    + destruct (Z.eq_dec (utcMinute (fromSecsSinceEpoch timestamp)) 0); tauto.
Qed.

Lemma FormatTimestamp_by_milliseconds_witness :
  FormatTimestamp 172830000 "ddd, MMM d hh:mm" "ddd, MMM d"
  = LocaleDate (172830000 / 1000) "ddd, MMM d".
Proof.
  apply (FormatTimestamp_by_milliseconds 172830000).
  - discriminate.
  - reflexivity.
Defined.

(** ** lineYAt in float64 *)

Lemma alphaAt64_slotAlpha64 (lines : list Line) (i : nat) :
  alphaAt64 lines i = slotAlpha64 lines i.
Proof.
  unfold alphaAt64, slotAlpha64.
  destruct (List.length lines <=? i)%nat eqn:E; [| reflexivity].
  apply Nat.leb_le, nth_error_None in E. now rewrite E.
Qed.

(** The loop of [lineYAt64] forms the line unit on its first round and then
    keeps the running float64 sum. *)
Lemma linesHeight64_fold (tk : Toolkit) (w : PointDetailsWidget) (n : nat) :
  fold_left (linesHeight64_step tk w) (seq 0 n) (Some PrimFloat.zero)
  = match n with
    | O => Some PrimFloat.zero
    | S _ =>
        unit <- intAdd (height (font (_textStyle w)))
                       (statisticsDetailsPopupMidLineSpace tk) ;;
        Some (layoutSum64 (_lines w) (doubleOfZ unit) n)
    end.
Proof.
  induction n as [| n IH]; [reflexivity |].
  rewrite seq_S, fold_left_app, IH. cbn [fold_left Nat.add].
  unfold linesHeight64_step.
  destruct (intAdd (height (font (_textStyle w)))
                   (statisticsDetailsPopupMidLineSpace tk)) as [unit |] eqn:E.
  - destruct n as [| n]; cbn [bind layoutSum64]; rewrite ?E; cbn [bind];
      now rewrite alphaAt64_slotAlpha64.
  - destruct n as [| n]; cbn [bind]; rewrite ?E; reflexivity.
Qed.

Lemma ceil64_zero : ceil64 PrimFloat.zero = Some 0.
Proof. reflexivity. Qed.

Lemma intAdd_some (a b : Z) :
  intAdd a b
  = if inInt a && inInt b && inInt (a + b) then Some (a + b) else None.
Proof. reflexivity. Qed.

(** Case analysis on every range test in sight. *)
Ltac case_inInt :=
  repeat (rewrite ?intAdd_some;
          match goal with
          | |- context [inInt ?n] =>
              let E := fresh "E" in
              destruct (inInt n) eqn:E; cbn [andb orb bind]; try congruence
          end).

(** C5, as amended: for every state and every [k], [lineYAt(k)] has a
    value exactly when its [int] operands and sums are in range and the
    result fits an [int]; the value is the top of the text rectangle plus
    the header font height plus the bottom margin plus the rounded-up
    float64 running sum, taken in slot order over the slots below [k] with
    every product and partial sum rounded to float64, of the slot's alpha
    (that of the recorded line, [1] past the recorded lines) times text font
    height plus spacing. *)
Theorem lineYAt64_described (tk : Toolkit) (w : PointDetailsWidget) (k : Z) :
  lineYAt64 tk w k = described_lineYAt64 tk w k.
Proof.
  unfold lineYAt64, described_lineYAt64, intsInRange, linesHeight64, lineUnit.
  rewrite linesHeight64_fold.
  destruct (inInt k); cbn [andb]; [| reflexivity].
  destruct (Z.to_nat k) as [| n] eqn:En.
  - replace (k <=? 0) with true by (symmetry; apply Z.leb_le; lia).
    cbn [orb bind layoutSum64]. rewrite ceil64_zero.
    case_inInt; try congruence; reflexivity.
  - replace (k <=? 0) with false by (symmetry; apply Z.leb_gt; lia).
    cbn [orb].
    case_inInt; try congruence; reflexivity.
Qed.

(** On the sample popup the float64 computation and the exact one agree:
    1 * 21 + 0.5 * 21 is 31.5 in both. *)
Example sample_lineYAt64_w2 :
  lineYAt64 Sample.tk Sample.w2 2 = Some (lineYAt Sample.tk Sample.w2 2)
  /\ lineYAt64 Sample.tk Sample.w2 0 = Some 39
  /\ lineYAt64 Sample.tk Sample.w0 2 = Some 81.
Proof. repeat split; vm_compute; reflexivity. Qed.

(** An index that is no [int], and a result that fits no [int]. *)
Example sample_lineYAt64_out_of_range :
  lineYAt64 Sample.tk Sample.w2 (2 ^ 31) = None
  /\ lineYAt64 Sample.tk
       (mkWidget true Sample.chart (mkTextStyle (mkFont 17))
          (mkTextStyle (mkFont 17)) "" "" NoText 0 (mkRect 0 0 0 0)
          (mkRect 0 (2 ^ 31 - 30) 0 0) [] 1%Q (mkSize 0 0) false 0)
       1 = None.
Proof. split; vm_compute; reflexivity. Qed.

(** C5 fails as stated, twice over.  On the sample popup with its second
    line at alpha 1/2, [lineYAt(2)] is 71 while header height plus margin
    plus the rounded-up sum is 57: the top of the text rectangle, 14, is
    missing from the claim.  And with the two lines at the float64 alphas
    0.2 and 0.8 the float64 sum 0.2 * 21 + 0.8 * 21 is exactly 21, so
    [lineYAt(2)] is 60, while the exact sum of the same alphas times 21 is
    above 21 and rounds up to 22, which even with the text top added gives
    61. *)
Lemma lineYAt64_not_as_claimed :
  lineYAt64 Sample.tk Sample.w2 2 = Some 71
  /\ described_lineYAt Sample.tk Sample.w2 2 = 57
  /\ map alpha (_lines Sample64.w3)
     = [3602879701896397 # 18014398509481984;
        3602879701896397 # 4503599627370496]
  /\ linesHeight64 Sample.tk Sample64.w3 2 = Some (doubleOfZ 21)
  /\ lineYAt64 Sample.tk Sample64.w3 2 = Some 60
  /\ described_lineYAt Sample.tk Sample64.w3 2 = 17 + 8 + 22
  /\ rect_y (_textRect Sample64.w3)
     + described_lineYAt Sample.tk Sample64.w3 2 = 61.
Proof. repeat split; vm_compute; reflexivity. Qed.

(** The rational [1 # 5] and the exact value of the float64 [0.2] stand for
    the same [double], 7205759403792794 / 2 ^ 55. *)
Example sample_alpha64 :
  alpha64 (1 # 5) = alpha64 Sample64.alpha_0_2
  /\ FloatOps.Prim2SF (alpha64 Sample64.alpha_0_2)
     = SpecFloat.S754_finite false 7205759403792794 (-55)
  /\ alpha64 1 = PrimFloat.one
  /\ alpha64 0 = PrimFloat.zero.
Proof. repeat split; vm_compute; reflexivity. Qed.
